(** * Projecteur: screen capture on Linux desktops (src/linuxdesktop.cc)

    A shallow embedding of [LinuxDesktop] (environment probe and capture
    dispatcher) and of the capture strategies of the anonymous namespace of
    linuxdesktop.cc, together with the properties of the specification that
    concern them; then of [main] and its command line, with properties read
    off the code.

    Conventions.
    - The Qt classes the code calls (QString, QRect, QPixmap, QProcessEnvironment,
      QDBusReply, ...) are modelled in [Module Qt], each function after the
      behaviour of the Qt function of the same name.
    - Everything outside the process (window system, bus services, file
      system, image decoders) is a field of the record [World]; the code's
      effects are threaded through an explicit state [Sys] by a small state
      monad, and every observable action is appended to a trace.
    - The preprocessor conditions of the source (QT_VERSION, HAS_Qt_DBus) are
      fields of [BuildConfig]. *)

From stdpp Require Import gmap strings list.
From Stdlib Require Import ZArith Ascii String Permutation Lia Bool.
From Stdlib Require QArith_base.

Local Open Scope Z_scope.

(* ===================================================================== *)
(** * Qt: strings and the process environment                             *)
(* ===================================================================== *)

Module Qt.

(** Qt::CaseSensitivity *)
Inductive CaseSensitivity := CaseInsensitive | CaseSensitive.

(** Case folding of one character.  Environment values are byte strings;
    the needles the program searches for are made of the letters of
    "gnome" and "wayland", and the only characters that Unicode case folding
    sends to one of these letters are their ASCII capitals, so folding
    A-Z is exact for the searches of this program. *)
Definition toCaseFolded (c : ascii) : ascii :=
  let n := nat_of_ascii c in
  if (Nat.leb 65 n && Nat.leb n 90)%bool then ascii_of_nat (n + 32) else c.

Fixpoint foldCase (s : string) : string :=
  match s with
  | EmptyString => EmptyString
  | String c s' => String (toCaseFolded c) (foldCase s')
  end.

(** QString::startsWith, case-sensitive *)
Fixpoint startsWith (hay needle : string) {struct needle} : bool :=
  match needle with
  | EmptyString => true
  | String c needle' =>
      match hay with
      | EmptyString => false
      | String d hay' => if Ascii.eqb c d then startsWith hay' needle' else false
      end
  end.

(** Is there a position of [hay] at which [needle] starts?
    (QString::indexOf(needle) != -1, case-sensitive) *)
Fixpoint occursIn (hay needle : string) : bool :=
  if startsWith hay needle then true
  else match hay with
       | EmptyString => false
       | String _ hay' => occursIn hay' needle
       end.

(** QString::contains(const QString&, Qt::CaseSensitivity) *)
Definition contains (hay needle : string) (cs : CaseSensitivity) : bool :=
  match cs with
  | CaseSensitive => occursIn hay needle
  | CaseInsensitive => occursIn (foldCase hay) (foldCase needle)
  end.

(** QString::size *)
Definition size (s : string) : nat := String.length s.

(** operator==(const QString&, const char* ) *)
Definition equals (s lit : string) : bool := String.eqb s lit.

(** QProcessEnvironment: a finite map from variable names to values. *)
Abbreviation QProcessEnvironment := (gmap string string).

(** QProcessEnvironment::value(name, defaultValue = QString()) *)
Definition value (env : QProcessEnvironment) (name : string) : string :=
  default EmptyString (env !! name).


(* --------------------------------------------------------------------- *)
(** ** QRect                                                              *)
(* --------------------------------------------------------------------- *)

(** QRect stores the coordinates of its first and of its last pixel, as
    ints.  Signed overflow is undefined in C++; the model computes in Z and
    so describes the executions in which no coordinate overflows. *)
Record QRect := mkQRect { x1 : Z; y1 : Z; x2 : Z; y2 : Z }.

(** QRect::QRect(): the null rectangle (0, 0, -1, -1) *)
Definition QRect_null : QRect := mkQRect 0 0 (-1) (-1).

(** QRect::QRect(int left, int top, int width, int height) *)
Definition QRect_xywh (left top width height : Z) : QRect :=
  mkQRect left top (left + width - 1) (top + height - 1).

Definition x (r : QRect) : Z := x1 r.
Definition y (r : QRect) : Z := y1 r.
Definition width (r : QRect) : Z := x2 r - x1 r + 1.
Definition height (r : QRect) : Z := y2 r - y1 r + 1.

(** QRect::isNull, QRect::isEmpty, QRect::isValid *)
Definition isNull (r : QRect) : bool := (x2 r =? x1 r - 1) && (y2 r =? y1 r - 1).
Definition isEmpty (r : QRect) : bool := (x2 r <? x1 r) || (y2 r <? y1 r).
Definition isValid (r : QRect) : bool := (x1 r <=? x2 r) && (y1 r <=? y2 r).

(** The span [l, r] that one axis of a rectangle covers once a negative
    extent is turned around, as QRect::operator| and operator& compute it
    (qrect.cpp, Qt 5). *)
Definition span (a1 a2 : Z) : Z * Z :=
  if a2 - a1 + 1 <? 0 then (a2, a1) else (a1, a2).

(** QRect::united (QRect::operator|) *)
Definition united (this r : QRect) : QRect :=
  if isNull this then r
  else if isNull r then this
  else
    let '(l1, r1) := span (x1 this) (x2 this) in
    let '(l2, r2) := span (x1 r) (x2 r) in
    let '(t1, b1) := span (y1 this) (y2 this) in
    let '(t2, b2) := span (y1 r) (y2 r) in
    mkQRect (Z.min l1 l2) (Z.min t1 t2) (Z.max r1 r2) (Z.max b1 b2).

(** QRect::intersected (QRect::operator&) *)
Definition intersected (this r : QRect) : QRect :=
  if isNull this || isNull r then QRect_null
  else
    let '(l1, r1) := span (x1 this) (x2 this) in
    let '(l2, r2) := span (x1 r) (x2 r) in
    if (r2 <? l1) || (r1 <? l2) then QRect_null
    else
      let '(t1, b1) := span (y1 this) (y2 this) in
      let '(t2, b2) := span (y1 r) (y2 r) in
      if (b2 <? t1) || (b1 <? t2) then QRect_null
      else mkQRect (Z.max l1 l2) (Z.max t1 t2) (Z.min r1 r2) (Z.min b1 b2).

(* --------------------------------------------------------------------- *)
(** ** QPixmap and QImage                                                 *)
(* --------------------------------------------------------------------- *)

(** qreal values are only stored and copied by this program. *)
Definition qreal : Type := QArith_base.Q.

(** QRgb *)
Definition QRgb : Type := Z.

(** The shared data of a pixmap: its size in pixels, its device pixel
    ratio and its pixels, [pixel px py] for 0 <= px < width, 0 <= py < height. *)
Record QPixmapData := mkPixmapData {
  pm_width : Z;
  pm_height : Z;
  pm_devicePixelRatio : qreal;
  pm_pixel : Z -> Z -> QRgb
}.

(** A QPixmap is a pointer to its data; QPixmap() has none.  QImage is
    modelled by the same type (QPixmap::fromImage keeps size, ratio and
    pixels). *)
Definition QPixmap : Type := option QPixmapData.
Definition QImage : Type := QPixmap.

(** QPixmap::QPixmap() *)
Definition QPixmap_null : QPixmap := None.

(** QPixmap::isNull: no data, or data of no extent *)
Definition pixmapIsNull (pm : QPixmap) : bool :=
  match pm with
  | None => true
  | Some d => (pm_width d <=? 0) || (pm_height d <=? 0)
  end.

(** QPixmap::width, QPixmap::height, QPixmap::size *)
Definition pixmapWidth (pm : QPixmap) : Z :=
  match pm with None => 0 | Some d => pm_width d end.
Definition pixmapHeight (pm : QPixmap) : Z :=
  match pm with None => 0 | Some d => pm_height d end.
Definition pixmapSize (pm : QPixmap) : Z * Z := (pixmapWidth pm, pixmapHeight pm).

(** QPixmap::setDevicePixelRatio *)
Definition setDevicePixelRatio (pm : QPixmap) (scaleFactor : qreal) : QPixmap :=
  if pixmapIsNull pm then pm
  else match pm with
       | None => None
       | Some d => Some (mkPixmapData (pm_width d) (pm_height d) scaleFactor (pm_pixel d))
       end.

(** QRasterPlatformPixmap::toImage(const QRect&): the whole image for a null
    rectangle, else the part of the image under the rectangle. *)
Definition toImage (d : QPixmapData) (rect : QRect) : QImage :=
  if isNull rect then Some d
  else
    let clipped := intersected rect (QRect_xywh 0 0 (pm_width d) (pm_height d)) in
    Some (mkPixmapData (width clipped) (height clipped) (pm_devicePixelRatio d)
            (fun px py => pm_pixel d (x clipped + px) (y clipped + py))).

(** QPixmap::copy(const QRect&), in the pixel coordinates of the pixmap *)
Definition copy (pm : QPixmap) (rect : QRect) : QPixmap :=
  if pixmapIsNull pm then QPixmap_null
  else match pm with
       | None => QPixmap_null
       | Some d =>
           let r := QRect_xywh 0 0 (pm_width d) (pm_height d) in
           let r := if negb (isEmpty rect) then intersected r rect else r in
           toImage d r
       end.

(** QPixmap::fromImage *)
Definition fromImage (image : QImage) : QPixmap :=
  if pixmapIsNull image then QPixmap_null else image.

(* --------------------------------------------------------------------- *)
(** ** QScreen                                                            *)
(* --------------------------------------------------------------------- *)

(** What the program reads of a QScreen. *)
Record QScreen := mkQScreen {
  name : string;
  geometry : QRect;
  devicePixelRatio : qreal
}.

(* --------------------------------------------------------------------- *)
(** ** QVariant and the message bus                                       *)
(* --------------------------------------------------------------------- *)

Inductive QVariant := VInvalid | VBool (b : bool) | VString (s : string).

(** QVariant::toString *)
Definition toString (v : QVariant) : string :=
  match v with
  | VInvalid => EmptyString
  | VBool true => "true"
  | VBool false => "false"
  | VString s => s
  end.

Abbreviation QVariantMap := (gmap string QVariant).

(** QVariantMap::operator[]: the value of the key, or an invalid QVariant *)
Definition at_key (m : QVariantMap) (key : string) : QVariant :=
  default VInvalid (m !! key).

(** An argument of a bus message. *)
Inductive Argument :=
| ABool (b : bool)
| AString (s : string)
| AMap (m : QVariantMap)
| AFileDescriptor (fd : Z).

(** QDBusMessage, as far as replies go *)
Inductive QDBusMessage :=
| ErrorMessage (errorName errorMessage : string)
| ReplyMessage (arguments : list Argument).

(** QDBusReply<T>: [value] is a default-constructed T when the reply is
    not valid. *)
Record QDBusReply (T : Type) := mkReply {
  replyIsValid : bool;
  replyErrorMessage : string;
  replyValue : T
}.
Arguments mkReply {T}.
Arguments replyIsValid {T}.
Arguments replyErrorMessage {T}.
Arguments replyValue {T}.

(** QDBusReply<bool>::QDBusReply(const QDBusMessage&) *)
Definition QDBusReply_bool (m : QDBusMessage) : QDBusReply bool :=
  match m with
  | ReplyMessage (ABool b :: _) => mkReply true EmptyString b
  | ReplyMessage _ => mkReply false "Unexpected reply signature" false
  | ErrorMessage _ e => mkReply false e false
  end.

(** QDBusReply<QVariantMap>::QDBusReply(const QDBusMessage&) *)
Definition QDBusReply_map (m : QDBusMessage) : QDBusReply QVariantMap :=
  match m with
  | ReplyMessage (AMap r :: _) => mkReply true EmptyString r
  | ReplyMessage _ => mkReply false "Unexpected reply signature" ∅
  | ErrorMessage _ e => mkReply false e ∅
  end.

(** QDBusInterface: the remote object it stands for *)
Record QDBusInterface := mkInterface {
  service : string;
  path : string;
  interface : string
}.

End Qt.

(* ===================================================================== *)
(** * The world outside the process, and the effects of the program       *)
(* ===================================================================== *)

(** The preprocessor symbols the source branches on. *)
Record BuildConfig := mkBuild {
  QT_VERSION : Z;
  HAS_Qt_DBus : bool
}.

(** QT_VERSION_CHECK(major, minor, patch) *)
Definition QT_VERSION_CHECK (major minor patch : Z) : Z :=
  Z.lor (Z.shiftl major 16) (Z.lor (Z.shiftl minor 8) patch).

Definition bytes : Type := list Byte.byte.

(** A call on the bus: the remote object, the method and its arguments. *)
Record BusRequest := mkRequest {
  req_interface : Qt.QDBusInterface;
  req_method : string;
  req_arguments : list Qt.Argument
}.

(** What a remote service does to the files of this process while it
    handles a call: it writes a file by name, or it writes into a descriptor
    it was handed. *)
Inductive RemoteEffect :=
| WritesFile (path : string) (data : bytes)
| WritesDescriptor (fd : Z) (data : bytes).

(** The collaborators of the capture code. *)
Record World := mkWorld {
  (** QGuiApplication::screens() *)
  screens : list Qt.QScreen;
  (** QApplication::primaryScreen() *)
  primaryScreen : Qt.QScreen;
  (** QScreen::virtualSiblings() *)
  virtualSiblings : Qt.QScreen -> list Qt.QScreen;
  (** QApplication::desktop()->isVirtualDesktop() and ->winId() *)
  desktopIsVirtualDesktop : bool;
  desktopWinId : Z;
  (** QScreen::grabWindow(window, x, y, width, height) *)
  platformGrabWindow : Qt.QScreen -> Z -> Z -> Z -> Z -> Z -> Qt.QPixmap;
  (** QDir::temp().absoluteFilePath(fileName) *)
  tempAbsoluteFilePath : string -> string;
  (** The file QTemporaryFile::open() creates, with its descriptor; None
      when it cannot create one. *)
  temporaryFile : option (string * Z);
  (** The image decoders: an optional format name and the bytes *)
  decodeImage : option string -> bytes -> Qt.QImage;
  (** The services on the bus: the reply to a call and what the service
      wrote meanwhile *)
  dbus : BusRequest -> Qt.QDBusMessage * list RemoteEffect
}.

Inductive LogLevel := Debug | Warning | Error.

(** The observable actions of the program, in the order they happen. *)
Inductive Event :=
| EvLog (level : LogLevel) (text : list string)
| EvTemporaryFile (opened : option string)
| EvDBusInterface (iface : Qt.QDBusInterface)
| EvDBusCall (request : BusRequest)
| EvGrabWindow (screen : Qt.QScreen) (window x y width height : Z)
| EvRemove (path : string).

(** The state the program acts on: the files by name, the open descriptors
    (the file each one refers to and its offset), and the trace so far. *)
Record Sys := mkSys {
  files : gmap string bytes;
  descriptors : gmap Z (string * nat);
  trace : list Event
}.

(** Computations with effects on [Sys]. *)
Definition M (A : Type) : Type := Sys -> A * Sys.

Definition ret {A} (a : A) : M A := fun s => (a, s).
Definition bind {A B} (m : M A) (k : A -> M B) : M B :=
  fun s => let '(a, s') := m s in k a s'.

Notation "x <- m ;; k" := (bind m (fun x => k))
  (at level 100, m at next level, right associativity).
Notation "m ;;; k" := (bind m (fun _ => k))
  (at level 100, right associativity).

Definition emit (e : Event) : M unit :=
  fun s => (tt, mkSys (files s) (descriptors s) (trace s ++ [e])).

(** The result, the final state and the events of a run. *)
Definition result {A} (r : A * Sys) : A := fst r.
Definition final {A} (r : A * Sys) : Sys := snd r.
Definition events_of {A} (m : M A) (s : Sys) : list Event :=
  drop (List.length (trace s)) (trace (final (m s))).

(** logging.h: logError(category), logWarning(category); qDebug() *)
Definition logError (text : string) : M unit := emit (EvLog Error [text]).
Definition logWarning (text : string) : M unit := emit (EvLog Warning [text]).
Definition qDebug (text : list string) : M unit := emit (EvLog Debug text).

(** QObject::tr *)
Definition tr (text : string) : string := text.

(** Writing [data] at offset [off] of [content]. *)
Definition overwrite (content : bytes) (off : nat) (data : bytes) : bytes :=
  take off content ++ data ++ drop (off + List.length data)%nat content.

Definition applyRemote (s : Sys) (e : RemoteEffect) : Sys :=
  match e with
  | WritesFile p data => mkSys (<[p := data]> (files s)) (descriptors s) (trace s)
  | WritesDescriptor fd data =>
      match descriptors s !! fd with
      | None => s
      | Some (p, off) =>
          mkSys (<[p := overwrite (default [] (files s !! p)) off data]> (files s))
                (<[fd := (p, (off + List.length data)%nat)]> (descriptors s))
                (trace s)
      end
  end.

(** QDBusInterface::QDBusInterface(service, path, interface) *)
Definition QDBusInterface (service path interface : string) : M Qt.QDBusInterface :=
  let i := Qt.mkInterface service path interface in
  emit (EvDBusInterface i) ;;; ret i.

(** QDBusInterface::call and callWithArgumentList(QDBus::Block, ...) *)
Definition call (w : World) (i : Qt.QDBusInterface) (method : string)
    (args : list Qt.Argument) : M Qt.QDBusMessage :=
  let request := mkRequest i method args in
  emit (EvDBusCall request) ;;;
  fun s => let '(reply, effects) := dbus w request in
           (reply, fold_left applyRemote effects s).

(** QPixmap::QPixmap(const QString& fileName): null when the file cannot
    be read or decoded *)
Definition QPixmap_fromFile (w : World) (fileName : string) : M Qt.QPixmap :=
  fun s => match files s !! fileName with
           | None => (Qt.QPixmap_null, s)
           | Some content => (Qt.fromImage (decodeImage w None content), s)
           end.

(** QFile::remove(const QString& fileName) *)
Definition QFile_remove (fileName : string) : M bool :=
  emit (EvRemove fileName) ;;;
  fun s => (bool_decide (is_Some (files s !! fileName)),
            mkSys (delete fileName (files s)) (descriptors s) (trace s)).

(** An open QTemporaryFile: its name and its descriptor. *)
Record QTemporaryFile := mkTemporaryFile {
  fileName : string;
  handle : Z
}.

(** QTemporaryFile::open() *)
Definition QTemporaryFile_open (w : World) : M (option QTemporaryFile) :=
  match temporaryFile w with
  | None => emit (EvTemporaryFile None) ;;; ret None
  | Some (p, fd) =>
      emit (EvTemporaryFile (Some p)) ;;;
      fun s => (Some (mkTemporaryFile p fd),
                mkSys (<[p := []]> (files s)) (<[fd := (p, 0%nat)]> (descriptors s)) (trace s))
  end.

(** QTemporaryFile::~QTemporaryFile(): closes and removes the file *)
Definition QTemporaryFile_destroy (f : QTemporaryFile) : M unit :=
  fun s => (tt, mkSys (delete (fileName f) (files s)) (delete (handle f) (descriptors s)) (trace s)).

(** QFile::seek(qint64 pos) *)
Definition seek (f : QTemporaryFile) (pos : nat) : M bool :=
  fun s => match descriptors s !! handle f with
           | None => (false, s)
           | Some (p, _) =>
               (true, mkSys (files s) (<[handle f := (p, pos)]> (descriptors s)) (trace s))
           end.

(** QIODevice::readAll: the bytes from the offset of the descriptor on *)
Definition readAll (f : QTemporaryFile) : M bytes :=
  fun s => match descriptors s !! handle f with
           | None => ([], s)
           | Some (p, off) =>
               let content := default [] (files s !! p) in
               (drop off content,
                mkSys (files s) (<[handle f := (p, List.length content)]> (descriptors s)) (trace s))
           end.

(** QImage::load(QIODevice* device, const char* format) *)
Definition QImage_load (w : World) (device : QTemporaryFile) (format : string) : M Qt.QImage :=
  data <- readAll device ;;
  ret (decodeImage w (Some format) data).

(** QScreen::grabWindow *)
Definition grabWindow (w : World) (screen : Qt.QScreen) (window x y width height : Z)
    : M Qt.QPixmap :=
  emit (EvGrabWindow screen window x y width height) ;;;
  ret (platformGrabWindow w screen window x y width height).

(* ===================================================================== *)
(** * The capture strategies (anonymous namespace of linuxdesktop.cc)     *)
(* ===================================================================== *)

(** grabScreenDBusGnome() *)
Definition grabScreenDBusGnome (w : World) : M Qt.QPixmap :=
  let filepath := tempAbsoluteFilePath w "000_projecteur_zoom_screenshot.png" in
  interface <- QDBusInterface "org.gnome.Shell"
                              "/org/gnome/Shell/Screenshot"
                              "org.gnome.Shell.Screenshot" ;;
  message <- call w interface "Screenshot"
               [Qt.ABool false; Qt.ABool false; Qt.AString filepath] ;;
  let reply := Qt.QDBusReply_bool message in
  if Qt.replyValue reply then
    pm <- QPixmap_fromFile w filepath ;;
    QFile_remove filepath ;;;
    ret pm
  else
    logError (tr "Screenshot via GNOME DBus interface failed.") ;;;
    ret Qt.QPixmap_null.

(** The options record grabScreenDBusKde sends. *)
Definition kdeOptions : Qt.QVariantMap :=
  <["native-resolution" := Qt.VBool true]>
    (<["include-decoration" := Qt.VBool false]>
       (<["include-cursor" := Qt.VBool false]> ∅)).

(** grabScreenDBusKde().  The QDBusUnixFileDescriptor duplicates the handle
    of the temporary file; both descriptors share one offset, so the pipe
    is the handle here.  The destructor of the temporary file runs when the
    function returns. *)
Definition grabScreenDBusKde (w : World) : M Qt.QPixmap :=
  (* Create a temporary file to receive the screenshot data *)
  opened <- QTemporaryFile_open w ;;
  match opened with
  | None =>
      qDebug ["Failed to create temporary file"] ;;;
      ret Qt.QPixmap_null
  | Some tempFile =>
      pm <- (let pipe := handle tempFile in
             let options := kdeOptions in
             (* Create DBus interface *)
             interface <- QDBusInterface "org.kde.KWin.ScreenShot2"
                                         "/org/kde/KWin/ScreenShot2"
                                         "org.kde.KWin.ScreenShot2" ;;
             let args := [Qt.AMap options; Qt.AFileDescriptor pipe] in
             message <- call w interface "CaptureActiveScreen" args ;;
             let reply := Qt.QDBusReply_map message in
             if negb (Qt.replyIsValid reply) then
               qDebug ["Screenshot failed:"; Qt.replyErrorMessage reply] ;;;
               ret Qt.QPixmap_null
             else
               let results := Qt.replyValue reply in
               if negb (Qt.equals (Qt.toString (Qt.at_key results "status")) "ok") then
                 qDebug ["Screenshot failed with status:";
                         Qt.toString (Qt.at_key results "status")] ;;;
                 qDebug ["Error message:"; Qt.toString (Qt.at_key results "error")] ;;;
                 ret Qt.QPixmap_null
               else
                 seek tempFile 0 ;;;
                 screenshot <- QImage_load w tempFile "PNG" ;;
                 ret (Qt.fromImage screenshot)) ;;
      QTemporaryFile_destroy tempFile ;;;
      ret pm
  end.

(** The rectangle the loop of grabScreenVirtualDesktop computes:
    QRect g; for (s : screens) g = g.united(s->geometry()); *)
Definition unitedGeometry (screens : list Qt.QScreen) : Qt.QRect :=
  fold_left (fun g s => Qt.united g (Qt.geometry s)) screens Qt.QRect_null.

(** The window grabScreenVirtualDesktop captures: the desktop widget before
    Qt 6, the window 0 from Qt 6 on. *)
Definition virtualDesktopWindow (cfg : BuildConfig) (w : World) : Z :=
  if QT_VERSION cfg <? QT_VERSION_CHECK 6 0 0 then desktopWinId w else 0.

(** grabScreenVirtualDesktop(QScreen* screen) *)
Definition grabScreenVirtualDesktop (cfg : BuildConfig) (w : World) (screen : Qt.QScreen)
    : M Qt.QPixmap :=
  let g := unitedGeometry (screens w) in
  pm <- grabWindow w (primaryScreen w) (virtualDesktopWindow cfg w)
          (Qt.x g) (Qt.y g) (Qt.width g) (Qt.height g) ;;
  if negb (Qt.pixmapIsNull pm) then
    let pm := Qt.setDevicePixelRatio pm (Qt.devicePixelRatio screen) in
    ret (Qt.copy pm (Qt.geometry screen))
  else
    ret pm.

(* ===================================================================== *)
(** * LinuxDesktop: the environment probe                                 *)
(* ===================================================================== *)

Module LinuxDesktop.

(** Modelled from the spec: the enumeration LinuxDesktop::Type is declared
    in linuxdesktop.h, which is not among the sources.  The specification
    gives it as {Unknown, GNOME, KDE}; the constructor below names the
    enumerators [Gnome] and [KDE], and [Other] stands for Unknown. *)
Inductive Type' := KDE | Gnome | Other.

(** The members of the class: m_type and m_wayland. *)
Record t := mk { m_type : Type'; m_wayland : bool }.

(** Modelled from the spec: the default member initialisers of m_type and
    m_wayland are in linuxdesktop.h, which is not among the sources; per the
    specification an object starts as Unknown and non-compositor. *)
Definition initial : t := {| m_type := Other; m_wayland := false |}.

(** LinuxDesktop::LinuxDesktop(QObject* ), with the process environment
    (QProcessEnvironment::systemEnvironment()) as an argument. *)
Definition LinuxDesktop (env : Qt.QProcessEnvironment) : t :=
  (* check for Kde and Gnome *)
  let kdeFullSession := Qt.value env "KDE_FULL_SESSION" in
  let gnomeSessionId := Qt.value env "GNOME_DESKTOP_SESSION_ID" in
  let desktopSession := Qt.value env "DESKTOP_SESSION" in
  let xdgCurrentDesktop := Qt.value env "XDG_CURRENT_DESKTOP" in
  let m_type :=
    if (negb (Nat.eqb (Qt.size gnomeSessionId) 0)
        || Qt.contains xdgCurrentDesktop "Gnome" Qt.CaseInsensitive)%bool
    then Gnome
    else if (negb (Nat.eqb (Qt.size kdeFullSession) 0)
             || Qt.equals desktopSession "kde-plasma")%bool
    then KDE
    else m_type initial in
  (* check for wayland session *)
  let waylandDisplay := Qt.value env "WAYLAND_DISPLAY" in
  let xdgSessionType := Qt.value env "XDG_SESSION_TYPE" in
  let m_wayland :=
    (Qt.equals xdgSessionType "wayland"
     || Qt.contains waylandDisplay "wayland" Qt.CaseInsensitive)%bool in
  {| m_type := m_type; m_wayland := m_wayland |}.

(** bool isWayland() const; Type type() const *)
Definition isWayland (this : t) : bool := m_wayland this.
Definition type (this : t) : Type' := m_type this.


(** LinuxDesktop::grabScreenWayland(QScreen* screen) const *)
Definition grabScreenWayland (cfg : BuildConfig) (w : World) (this : t) (screen : Qt.QScreen)
    : M Qt.QPixmap :=
  if HAS_Qt_DBus cfg then
    pm <- match type this with
          | Gnome => grabScreenDBusGnome w
          | KDE => grabScreenDBusKde w
          | _ =>
              logWarning (tr "Currently zoom on Wayland is only supported via DBus on KDE and GNOME.") ;;;
              ret Qt.QPixmap_null
          end ;;
    ret (if Qt.pixmapIsNull pm then pm else Qt.copy pm (Qt.geometry screen))
  else
    logWarning (tr ("Projecteur was compiled without Qt DBus. Currently zoom on Wayland is "
                    ++ "only supported via DBus on KDE and GNOME.")) ;;;
    ret Qt.QPixmap_null.

(** The local constant isVirtualDesktop of grabScreen, with its two
    definitions by Qt version. *)
Definition isVirtualDesktop (cfg : BuildConfig) (w : World) : bool :=
  if QT_VERSION_CHECK 5 11 0 <=? QT_VERSION cfg
  then Nat.ltb 1 (List.length (virtualSiblings w (primaryScreen w)))
  else desktopIsVirtualDesktop w.

(** LinuxDesktop::grabScreen(QScreen* screen) const; [None] is nullptr. *)
Definition grabScreen (cfg : BuildConfig) (w : World) (this : t) (screen : option Qt.QScreen)
    : M Qt.QPixmap :=
  match screen with
  | None => ret Qt.QPixmap_null
  | Some screen =>
      if isWayland this then grabScreenWayland cfg w this screen
      else
        if isVirtualDesktop cfg w then grabScreenVirtualDesktop cfg w screen
        else
          (* everything else.. usually X11 *)
          grabWindow w screen 0 0 0 (-1) (-1)
  end.

End LinuxDesktop.

(* ===================================================================== *)
(** * Vocabulary of the properties                                        *)
(* ===================================================================== *)

(** [ContainsCI hay needle]: some substring of [hay] equals [needle] up to
    the case of its letters. *)
Definition ContainsCI (hay needle : string) : Prop :=
  exists pre mid post : string,
    hay = String.append pre (String.append mid post)
    /\ Qt.foldCase mid = Qt.foldCase needle.

(** The GNOME signal of an environment: the GNOME session id is set to a
    non-empty value, or the current desktop mentions gnome. *)
Definition gnomeSignal (env : Qt.QProcessEnvironment) : Prop :=
  Qt.value env "GNOME_DESKTOP_SESSION_ID" <> EmptyString
  \/ ContainsCI (Qt.value env "XDG_CURRENT_DESKTOP") "gnome".

(** The KDE signal: the KDE full session variable is set to a non-empty
    value, or the desktop session is exactly kde-plasma. *)
Definition kdeSignal (env : Qt.QProcessEnvironment) : Prop :=
  Qt.value env "KDE_FULL_SESSION" <> EmptyString
  \/ Qt.value env "DESKTOP_SESSION" = "kde-plasma"%string.

(** The compositor signal: the session type is exactly wayland, or the
    display socket name mentions wayland. *)
Definition waylandSignal (env : Qt.QProcessEnvironment) : Prop :=
  Qt.value env "XDG_SESSION_TYPE" = "wayland"%string
  \/ ContainsCI (Qt.value env "WAYLAND_DISPLAY") "wayland".

(** A surface whose geometry is not the null rectangle. *)
Definition nonNullGeometry (s : Qt.QScreen) : Prop :=
  Qt.isNull (Qt.geometry s) = false.

(** Kinds of events. *)
Definition isBusEvent (e : Event) : bool :=
  match e with EvDBusInterface _ | EvDBusCall _ => true | _ => false end.
Definition isGrabEvent (e : Event) : bool :=
  match e with EvGrabWindow _ _ _ _ _ _ => true | _ => false end.

(** The remote object and the call of the GNOME strategy. *)
Definition gnomeInterface : Qt.QDBusInterface :=
  Qt.mkInterface "org.gnome.Shell" "/org/gnome/Shell/Screenshot" "org.gnome.Shell.Screenshot".
Definition gnomePath (w : World) : string :=
  tempAbsoluteFilePath w "000_projecteur_zoom_screenshot.png".
Definition gnomeRequest (w : World) : BusRequest :=
  mkRequest gnomeInterface "Screenshot"
    [Qt.ABool false; Qt.ABool false; Qt.AString (gnomePath w)].

(** The remote object and the call of the KDE strategy, for the pipe [fd]. *)
Definition kdeInterface : Qt.QDBusInterface :=
  Qt.mkInterface "org.kde.KWin.ScreenShot2" "/org/kde/KWin/ScreenShot2" "org.kde.KWin.ScreenShot2".
Definition kdeRequest (fd : Z) : BusRequest :=
  mkRequest kdeInterface "CaptureActiveScreen" [Qt.AMap kdeOptions; Qt.AFileDescriptor fd].

(** The state once the temporary file [p] is open on descriptor [fd]. *)
Definition opened (p : string) (fd : Z) (s : Sys) : Sys :=
  mkSys (<[p := []]> (files s)) (<[fd := (p, 0%nat)]> (descriptors s)) (trace s).

(** The content of the file [p] once a service has had its effects on [s]. *)
Definition received (effects : list RemoteEffect) (s : Sys) (p : string) : bytes :=
  default [] (files (fold_left applyRemote effects s) !! p).

(** The size of a rectangle, as a pair. *)
Definition rectSize (r : Qt.QRect) : Z * Z := (Qt.width r, Qt.height r).

(** The two surfaces of the example of the specification. *)
Definition exampleR1 : Qt.QRect := Qt.QRect_xywh 0 0 1920 1080.
Definition exampleR2 : Qt.QRect := Qt.QRect_xywh 1920 0 1280 1024.

(** What the window system returns for the capture of the union of all
    surfaces. *)
Definition unionCapture (cfg : BuildConfig) (w : World) : Qt.QPixmap :=
  let g := unitedGeometry (screens w) in
  platformGrabWindow w (primaryScreen w) (virtualDesktopWindow cfg w)
    (Qt.x g) (Qt.y g) (Qt.width g) (Qt.height g).

(** The event of that capture. *)
Definition unionCaptureEvent (cfg : BuildConfig) (w : World) : Event :=
  let g := unitedGeometry (screens w) in
  EvGrabWindow (primaryScreen w) (virtualDesktopWindow cfg w)
    (Qt.x g) (Qt.y g) (Qt.width g) (Qt.height g).

(** A rectangle that is not empty and shares pixels with an image; a
    rectangle that is not empty and lies within an image. *)
Definition Overlaps (d : Qt.QPixmapData) (r : Qt.QRect) : Prop :=
  Qt.x1 r <= Qt.x2 r /\ Qt.y1 r <= Qt.y2 r
  /\ 0 <= Qt.x2 r /\ Qt.x1 r < Qt.pm_width d
  /\ 0 <= Qt.y2 r /\ Qt.y1 r < Qt.pm_height d.

Definition Within (d : Qt.QPixmapData) (r : Qt.QRect) : Prop :=
  0 <= Qt.x1 r /\ Qt.x1 r <= Qt.x2 r /\ Qt.x2 r < Qt.pm_width d
  /\ 0 <= Qt.y1 r /\ Qt.y1 r <= Qt.y2 r /\ Qt.y2 r < Qt.pm_height d.

(** The image a cropping path has captured before it crops: the image of
    the bus strategy of the desktop in a compositor session, else the
    capture of the union stamped with the ratio of the target. *)
Definition capturedImage (cfg : BuildConfig) (w : World) (this : LinuxDesktop.t)
    (screen : Qt.QScreen) (s : Sys) : Qt.QPixmap :=
  if LinuxDesktop.isWayland this then
    match LinuxDesktop.type this with
    | LinuxDesktop.Gnome => result (grabScreenDBusGnome w s)
    | LinuxDesktop.KDE => result (grabScreenDBusKde w s)
    | LinuxDesktop.Other => Qt.QPixmap_null
    end
  else Qt.setDevicePixelRatio (unionCapture cfg w) (Qt.devicePixelRatio screen).

(** The run of a bus strategy extends the trace by events that are no
    captures of the window system. *)
Definition extendsWithoutGrab (r : Qt.QPixmap * Sys) (s : Sys) : Prop :=
  exists evs, trace (snd r) = trace s ++ evs /\ Forall (fun e => isGrabEvent e = false) evs.


(* ===================================================================== *)
(** * Example worlds                                                      *)
(* ===================================================================== *)

Definition ratio1 : Qt.qreal := QArith_base.Qmake 1 1.
Definition ratio2 : Qt.qreal := QArith_base.Qmake 2 1.

(** Two surfaces side by side, as in the example of the specification. *)
Definition screenLeft : Qt.QScreen := Qt.mkQScreen "DP-1" exampleR1 ratio1.
Definition screenRight : Qt.QScreen := Qt.mkQScreen "HDMI-1" exampleR2 ratio1.

(** An image of a given size in which every pixel tells its position. *)
Definition testImage (width height : Z) (ratio : Qt.qreal) : Qt.QPixmapData :=
  Qt.mkPixmapData width height ratio (fun px py => px + 65536 * py).

Definition pngBytes : bytes := [Byte.x89; Byte.x50; Byte.x4e; Byte.x47].

Definition kdeOkResults : Qt.QVariantMap := {[ "status"%string := Qt.VString "ok" ]}.

Definition kdeErrorResults : Qt.QVariantMap :=
  <["error"%string := Qt.VString "permission denied"]>
    {[ "status"%string := Qt.VString "error" ]}.

(** The window system of the examples: a capture has the size asked for,
    or the size of the surface when the whole surface is asked for. *)
Definition exampleGrabWindow (screen : Qt.QScreen) (window x y width height : Z) : Qt.QPixmap :=
  if (0 <? width) && (0 <? height)
  then Some (testImage width height ratio1)
  else Some (testImage (Qt.width (Qt.geometry screen)) (Qt.height (Qt.geometry screen)) ratio1).

(** Two surfaces; KWin captures the active surface, the right one of 1280 x
    1024 pixels, into the pipe; GNOME Shell answers false and writes
    nothing. *)
Definition twinWorld : World := {|
  screens := [screenLeft; screenRight];
  primaryScreen := screenLeft;
  virtualSiblings := fun _ => [screenLeft; screenRight];
  desktopIsVirtualDesktop := true;
  desktopWinId := 42;
  platformGrabWindow := exampleGrabWindow;
  tempAbsoluteFilePath := fun fileName => ("/tmp/" ++ fileName)%string;
  temporaryFile := Some ("/tmp/projecteur.aB12cd"%string, 7);
  decodeImage := fun _ data =>
    match data with [] => None | _ => Some (testImage 1280 1024 ratio1) end;
  dbus := fun request =>
    if String.eqb (Qt.service (req_interface request)) "org.kde.KWin.ScreenShot2"
    then (Qt.ReplyMessage [Qt.AMap kdeOkResults],
          match req_arguments request with
          | [_; Qt.AFileDescriptor fd] => [WritesDescriptor fd pngBytes]
          | _ => []
          end)
    else (Qt.ReplyMessage [Qt.ABool false], [])
|}.

(** The same world with a KWin that refuses. *)
Definition refusingWorld : World := {|
  screens := screens twinWorld;
  primaryScreen := primaryScreen twinWorld;
  virtualSiblings := virtualSiblings twinWorld;
  desktopIsVirtualDesktop := true;
  desktopWinId := 42;
  platformGrabWindow := exampleGrabWindow;
  tempAbsoluteFilePath := tempAbsoluteFilePath twinWorld;
  temporaryFile := temporaryFile twinWorld;
  decodeImage := decodeImage twinWorld;
  dbus := fun request => (Qt.ReplyMessage [Qt.AMap kdeErrorResults], [])
|}.

(** The same world in which no temporary file can be created. *)
Definition fullDiskWorld : World := {|
  screens := screens twinWorld;
  primaryScreen := primaryScreen twinWorld;
  virtualSiblings := virtualSiblings twinWorld;
  desktopIsVirtualDesktop := true;
  desktopWinId := 42;
  platformGrabWindow := exampleGrabWindow;
  tempAbsoluteFilePath := tempAbsoluteFilePath twinWorld;
  temporaryFile := None;
  decodeImage := decodeImage twinWorld;
  dbus := dbus twinWorld
|}.

(** One surface of 1920 x 1080 at ratio 2, whose captures are in device
    pixels. *)
Definition hidpiScreen : Qt.QScreen := Qt.mkQScreen "eDP-1" exampleR1 ratio2.

Definition hidpiWorld : World := {|
  screens := [hidpiScreen];
  primaryScreen := hidpiScreen;
  virtualSiblings := fun _ => [hidpiScreen];
  desktopIsVirtualDesktop := false;
  desktopWinId := 42;
  platformGrabWindow := fun _ _ _ _ _ _ => Some (testImage 3840 2160 ratio2);
  tempAbsoluteFilePath := tempAbsoluteFilePath twinWorld;
  temporaryFile := temporaryFile twinWorld;
  decodeImage := decodeImage twinWorld;
  dbus := dbus twinWorld
|}.

Definition qt5 : BuildConfig := mkBuild (QT_VERSION_CHECK 5 15 2) true.

Definition emptySys : Sys := mkSys ∅ ∅ [].

(** A state in which an earlier run left the screenshot file of the GNOME
    strategy behind. *)
Definition staleSys : Sys :=
  mkSys {[ "/tmp/000_projecteur_zoom_screenshot.png"%string := pngBytes ]} ∅ [].

Definition x11Desktop : LinuxDesktop.t := LinuxDesktop.mk LinuxDesktop.Other false.
Definition kdeWayland : LinuxDesktop.t := LinuxDesktop.mk LinuxDesktop.KDE true.
Definition otherWayland : LinuxDesktop.t := LinuxDesktop.mk LinuxDesktop.Other true.

(** An environment in which both desktops announce themselves. *)
Definition bothDesktops : Qt.QProcessEnvironment :=
  <["KDE_FULL_SESSION"%string := "true"%string]>
    (<["XDG_CURRENT_DESKTOP"%string := "ubuntu:GNOME"%string]> ∅).


(* ===================================================================== *)
(** * Further vocabulary                                                  *)
(* ===================================================================== *)

(** The variables the desktop kind is read from, and those the session
    flag is read from. *)
Definition desktopVariables : list string :=
  ["KDE_FULL_SESSION"; "GNOME_DESKTOP_SESSION_ID"; "DESKTOP_SESSION";
   "XDG_CURRENT_DESKTOP"]%string.

Definition sessionVariables : list string :=
  ["WAYLAND_DISPLAY"; "XDG_SESSION_TYPE"]%string.

(** [Encloses g r]: every pixel of [r] is a pixel of [g]. *)
Definition Encloses (g r : Qt.QRect) : Prop :=
  Qt.x1 g <= Qt.x1 r /\ Qt.x2 r <= Qt.x2 g
  /\ Qt.y1 g <= Qt.y1 r /\ Qt.y2 r <= Qt.y2 g.

Definition isCallEvent (e : Event) : bool :=
  match e with EvDBusCall _ => true | _ => false end.

(** The number of bus calls and of captures of the window system among
    some events. *)
Definition captureAttempts (evs : list Event) : nat :=
  (List.length (List.filter isCallEvent evs)
   + List.length (List.filter isGrabEvent evs))%nat.

(** A run that extends the trace by events with the property [P]. *)
Definition extendsWith (P : list Event -> Prop) (r : Qt.QPixmap * Sys) (s : Sys) : Prop :=
  exists evs, trace (snd r) = trace s ++ evs /\ P evs.

(** Two environments used as examples. *)
Definition waylandGnome : Qt.QProcessEnvironment :=
  <["XDG_CURRENT_DESKTOP"%string := "GNOME"%string]>
    (<["XDG_SESSION_TYPE"%string := "wayland"%string]> ∅).

Definition waylandGnomeLower : Qt.QProcessEnvironment :=
  <["XDG_CURRENT_DESKTOP"%string := "gnome"%string]>
    (<["XDG_SESSION_TYPE"%string := "wayland"%string]> ∅).

(** Does a reply carry the boolean true as its first argument? *)
Definition answersTrue (m : Qt.QDBusMessage) : bool :=
  match m with
  | Qt.ReplyMessage (Qt.ABool true :: _) => true
  | _ => false
  end.

(** The effects of a service that streams [chunks] into the descriptor
    [fd], one write after the other, and does nothing else. *)
Definition streams (fd : Z) (chunks : list bytes) : list RemoteEffect :=
  map (WritesDescriptor fd) chunks.

(** A world in which GNOME Shell writes the screenshot and answers true. *)
Definition gnomeWorld : World := {|
  screens := screens twinWorld;
  primaryScreen := primaryScreen twinWorld;
  virtualSiblings := virtualSiblings twinWorld;
  desktopIsVirtualDesktop := true;
  desktopWinId := 42;
  platformGrabWindow := exampleGrabWindow;
  tempAbsoluteFilePath := tempAbsoluteFilePath twinWorld;
  temporaryFile := temporaryFile twinWorld;
  decodeImage := fun _ data =>
    match data with [] => None | _ => Some (testImage 3200 1080 ratio2) end;
  dbus := fun request =>
    (Qt.ReplyMessage [Qt.ABool true],
     [WritesFile "/tmp/000_projecteur_zoom_screenshot.png" pngBytes])
|}.

(** A world without any service on the bus. *)
Definition busDownWorld : World := {|
  screens := screens twinWorld;
  primaryScreen := primaryScreen twinWorld;
  virtualSiblings := virtualSiblings twinWorld;
  desktopIsVirtualDesktop := true;
  desktopWinId := 42;
  platformGrabWindow := exampleGrabWindow;
  tempAbsoluteFilePath := tempAbsoluteFilePath twinWorld;
  temporaryFile := temporaryFile twinWorld;
  decodeImage := decodeImage twinWorld;
  dbus := fun request =>
    (Qt.ErrorMessage "org.freedesktop.DBus.Error.ServiceUnknown"
       "The name is not activatable", [])
|}.

Definition gnomeWayland : LinuxDesktop.t := LinuxDesktop.mk LinuxDesktop.Gnome true.

Definition withoutDBus : BuildConfig := mkBuild (QT_VERSION_CHECK 5 15 2) false.

(* ===================================================================== *)
(** * QString::arg                                                        *)
(* ===================================================================== *)

Module QtText.

(** QChar::digitValue, for the ASCII digits *)
Definition digitValue (c : ascii) : option nat :=
  let n := nat_of_ascii c in
  if (Nat.leb 48 n && Nat.leb n 57)%bool then Some (n - 48)%nat else None.

(** The place marker that starts right after a percent sign: an optional L
    and one or two digits.  The value is the number of the marker and the
    number of characters it takes after the percent sign. *)
Definition placeMarker (s : string) : option (nat * nat) :=
  let '(l, s') := match s with
                  | String "L"%char r => (1%nat, r)
                  | _ => (0%nat, s)
                  end in
  match s' with
  | EmptyString => None
  | String c r =>
      match digitValue c with
      | None => None
      | Some n =>
          match r with
          | EmptyString => Some (n, (l + 1)%nat)
          | String c2 _ =>
              match digitValue c2 with
              | Some m => Some ((10 * n + m)%nat, (l + 2)%nat)
              | None => Some (n, (l + 1)%nat)
              end
          end
      end
  end.

(** The lowest number among the place markers of a string. *)
Fixpoint lowestMarker (s : string) : option nat :=
  match s with
  | EmptyString => None
  | String c r =>
      let rest := lowestMarker r in
      if Ascii.eqb c "%"%char then
        match placeMarker r with
        | Some (n, _) => Some (match rest with Some m => Nat.min n m | None => n end)
        | None => rest
        end
      else rest
  end.

(** Every place marker numbered [n] replaced by [a]; [skip] characters are
    still to be dropped, those of a marker just replaced. *)
Fixpoint replaceMarkers (n : nat) (a : string) (skip : nat) (s : string) : string :=
  match s with
  | EmptyString => EmptyString
  | String c r =>
      match skip with
      | S k => replaceMarkers n a k r
      | O =>
          if Ascii.eqb c "%"%char then
            match placeMarker r with
            | Some (m, len) =>
                if Nat.eqb m n then String.append a (replaceMarkers n a len r)
                else String c (replaceMarkers n a 0 r)
            | None => String c (replaceMarkers n a 0 r)
            end
          else String c (replaceMarkers n a 0 r)
      end
  end.

(** QString::arg(const QString& a): the place markers with the lowest
    number are replaced by [a]; a string without a marker is returned as
    it is. *)
Definition arg (s a : string) : string :=
  match lowestMarker s with
  | None => s
  | Some n => replaceMarkers n a 0 s
  end.

(** A string without a percent sign. *)
Fixpoint noPercent (s : string) : bool :=
  match s with
  | EmptyString => true
  | String c r => negb (Ascii.eqb c "%"%char) && noPercent r
  end.

End QtText.

(* ===================================================================== *)
(** * main                                                                *)
(* ===================================================================== *)

Module Main.

(** The QCommandLineOption objects of main. *)
Inductive CommandLineOption :=
| versionOption | fullVersionOption | helpOption | fullHelpOption
| cfgFileOption | commandOption.

(** Main::tr *)
Definition tr (text : string) : string := text.

(** QCommandLineOption::description, as main constructs the options *)
Definition description (o : CommandLineOption) : string :=
  match o with
  | versionOption => tr "Print application version."
  | fullVersionOption => EmptyString
  | helpOption => tr "Show command line usage."
  | fullHelpOption => tr "Show complete command line usage."
  | cfgFileOption => tr "Set custom config file."
  | commandOption => tr "Send command to a running instance."
  end.

(** What main asks a QCommandLineParser after process(): whether an option
    was given, and its value (empty when it was not given). *)
Record QCommandLineParser := mkParser {
  isSet : CommandLineOption -> bool;
  value : CommandLineOption -> string
}.

(** Settings::StringProperty::Type.  settings.h is not among the sources;
    main names the enumerators Integer, Double and StringEnum, and
    [OtherType] stands for any further one. *)
Inductive PropertyType := Integer | Double | StringEnum | OtherType.

(** Settings::StringProperty: its type and its range, each QVariant of the
    range given by its toString(). *)
Record StringProperty := mkProperty {
  type : PropertyType;
  range : list string
}.

(** ProjecteurApplication::Options, of which main sets configFile. *)
Record Options := mkOptions { configFile : string }.

(** The collaborators of main. *)
Record World := mkWorld {
  (** QCommandLineParser::process(args): the parser after a successful
      parse; None when the arguments do not parse, in which case process
      reports the error and terminates the program itself *)
  process : list string -> option QCommandLineParser;
  (** projecteur-GitVersion.h *)
  version_string : string;
  version_branch : string;
  version_fullhash : string;
  version_isdirty : bool;
  (** Settings::stringProperties(), in the order of iteration, and
      StringProperty::typeToString *)
  stringProperties : list (string * StringProperty);
  typeToString : PropertyType -> string;
  (** RunGuard(key).tryToRun() *)
  tryToRun : string -> bool;
  (** ProjecteurCommandClientApp(command, argc, argv).exec() *)
  commandClientExec : string -> list string -> Z;
  (** ProjecteurApplication(argc, argv, options).exec() *)
  applicationExec : list string -> Options -> Z
}.

(** What a run of main does, in order. *)
Inductive Event :=
| Stdout (text : string)
| Stderr (text : string)
| ParserExit
| EvRunGuard (key : string)
| EvCommandClient (command : string) (argv : list string)
| EvApplication (argv : list string) (options : Options).

(** std::endl *)
Definition endl : string := String (ascii_of_nat 10) EmptyString.

(** print() << a << b ...: the pieces go to std::cout and the destructor
    adds std::endl.  error() does the same on std::cerr. *)
Definition print (pieces : list string) : Event :=
  Stdout (String.append (String.concat EmptyString pieces) endl).
Definition error (pieces : list string) : Event :=
  Stderr (String.append (String.concat EmptyString pieces) endl).

(** The lambda getValues of main.  range[0] and range[1] are read with
    QList::operator[], which requires them to exist; the model reads an
    empty string where they do not. *)
Definition getValues (sp : StringProperty) : string :=
  match type sp with
  | Integer | Double =>
      QtText.arg (QtText.arg "(%1 ... %2)" (nth 0 (range sp) EmptyString))
                 (nth 1 (range sp) EmptyString)
  | StringEnum =>
      let values := range sp in
      QtText.arg "(%1)" (String.concat ", " values)
  | OtherType => EmptyString
  end.

(** The usage text. *)
Definition usage (w : World) (applicationName : string) : list Event :=
  [ print [applicationName; " "; version_string w; endl];
    print ["Usage: projecteur [option]"; endl];
    print ["<Options>"];
    print ["  -h, --help             "; description helpOption];
    print ["  --help-all             "; description fullHelpOption];
    print ["  -v, --version          "; description versionOption];
    print ["  --cfg FILE             "; description cfgFileOption];
    print ["  -c COMMAND|PROPERTY    "; description commandOption; endl];
    print ["<Commands>"];
    print ["  spot=[on|off]          "; tr "Turn spotlight on/off."];
    print ["  settings=[show|hide]   "; tr "Show/hide preferences dialog."];
    print ["  quit                   "; tr "Quit the running instance."] ]%string.

(** The list of properties of the complete usage text. *)
Definition properties (w : World) : list Event :=
  print [EmptyString; endl; "<Properties>"%string]
  :: map (fun it : string * StringProperty =>
            print ["  "; fst it; "=["; typeToString w (type (snd it)); "]"; "   ";
                   getValues (snd it)]%string)
         (stringProperties w).

(** The version text. *)
Definition version (w : World) (parser : QCommandLineParser) (applicationName : string)
    : list Event :=
  [print [applicationName; " "; version_string w]%string]
  ++ (if (isSet parser fullVersionOption
          || (negb (String.eqb (version_branch w) "master")
              && negb (String.eqb (version_branch w) "not-within-git-repo")))%bool
      then (* Not a build from master branch, print out additional information: *)
        [print ["  - git-branch: "; version_branch w]%string;
         print ["  - git-hash: "; version_fullhash w]%string]
      else [])
  ++ (* Show if we have a build from modified sources *)
     (if version_isdirty w then [print ["  - dirty-flag: "; "1"]%string] else []).

(** int main(int argc, char* argv[]): the exit code and the events. *)
Definition main (w : World) (argv : list string) : Z * list Event :=
  let applicationName := "Projecteur"%string in
  match process w argv with
  | None => (1, [ParserExit])
  | Some parser =>
      if (isSet parser helpOption || isSet parser fullHelpOption)%bool then
        if negb (isSet parser fullHelpOption) then (0, usage w applicationName)
        else (0, usage w applicationName ++ properties w)
      else if (isSet parser versionOption || isSet parser fullVersionOption)%bool then
        (0, version w parser applicationName)
      else
        let ipcCommand :=
          if isSet parser commandOption then value parser commandOption else EmptyString in
        if (isSet parser commandOption && Nat.eqb (String.length ipcCommand) 0)%bool then
          (44, [error [tr "Command cannot be an empty string."]])
        else
          let options :=
            if isSet parser cfgFileOption then mkOptions (value parser cfgFileOption)
            else mkOptions EmptyString in
          if negb (tryToRun w applicationName) then
            if negb (Nat.eqb (String.length ipcCommand) 0) then
              (commandClientExec w ipcCommand argv,
               [EvRunGuard applicationName; EvCommandClient ipcCommand argv])
            else
              (42, [EvRunGuard applicationName;
                    error [tr "Another application instance is already running. Exiting."]])
          else if negb (Nat.eqb (String.length ipcCommand) 0) then
            (* No other application instance running - but command option was used. *)
            (43, [EvRunGuard applicationName;
                  error [QtText.arg
                           (tr "Cannot send command '%1' - no running application instance found.")
                           ipcCommand]])
          else
            (applicationExec w argv options,
             [EvRunGuard applicationName; EvApplication argv options])
  end.

(** The informational options. *)
Definition informational (parser : QCommandLineParser) : bool :=
  (isSet parser helpOption || isSet parser fullHelpOption
   || isSet parser versionOption || isSet parser fullVersionOption)%bool.

Definition isStdout (e : Event) : bool :=
  match e with Stdout _ => true | _ => false end.

Definition isApplication (e : Event) : bool :=
  match e with EvApplication _ _ => true | _ => false end.

(** Example parsers and worlds. *)
Definition noOptions : QCommandLineParser :=
  mkParser (fun _ => false) (fun _ => EmptyString).

Definition withCommand (command : string) : QCommandLineParser :=
  mkParser (fun o => match o with commandOption => true | _ => false end)
           (fun o => match o with commandOption => command | _ => EmptyString end).

Definition helpAndCommand : QCommandLineParser :=
  mkParser (fun o => match o with commandOption | helpOption => true | _ => false end)
           (fun o => match o with commandOption => "quit"%string | _ => EmptyString end).

Definition exampleWorld (parser : QCommandLineParser) (running : bool) : World := {|
  process := fun _ => Some parser;
  version_string := "0.9.2";
  version_branch := "master";
  version_fullhash := "0123456789abcdef";
  version_isdirty := false;
  stringProperties :=
    [("spot.size"%string, mkProperty Integer ["5"; "100"]%string);
     ("shape"%string, mkProperty StringEnum ["Circle"; "Square"]%string)];
  typeToString := fun t =>
    match t with
    | Integer => "Integer" | Double => "Double" | StringEnum => "Value"
    | OtherType => "Other"
    end%string;
  tryToRun := fun _ => negb running;
  commandClientExec := fun _ _ => 7;
  applicationExec := fun _ _ => 0
|}.

Definition helpOnly : QCommandLineParser :=
  mkParser (fun o => match o with helpOption => true | _ => false end)
           (fun _ => EmptyString).

(** A world whose parser finds a command besides the help option when
    there are more than two arguments. *)
Definition helpWorld : World := {|
  process := fun argv =>
    if Nat.leb (List.length argv) 2 then Some helpOnly else Some helpAndCommand;
  version_string := "0.9.2";
  version_branch := "develop";
  version_fullhash := "0123456789abcdef";
  version_isdirty := true;
  stringProperties := [];
  typeToString := fun _ => EmptyString;
  tryToRun := fun _ => true;
  commandClientExec := fun _ _ => 7;
  applicationExec := fun _ _ => 0
|}.

End Main.

(* ===================================================================== *)
(** * Properties of the string functions                                  *)
(* ===================================================================== *)

Section StringFacts.

Lemma foldCase_app (a b : string) :
  Qt.foldCase (String.append a b) = String.append (Qt.foldCase a) (Qt.foldCase b).
Proof.
  induction a as [|c a IH]; simpl; [reflexivity|]. now rewrite IH.
Qed.

Lemma foldCase_split (s a b : string) :
  Qt.foldCase s = String.append a b ->
  exists s1 s2, s = String.append s1 s2 /\ Qt.foldCase s1 = a /\ Qt.foldCase s2 = b.
Proof.
  revert s. induction a as [|c a IH]; intros s H.
  - exists EmptyString, s. simpl in *. auto.
  - destruct s as [|d s]; simpl in H; [discriminate|].
    injection H as Hc Hs. destruct (IH _ Hs) as (s1 & s2 & -> & H1 & H2).
    exists (String d s1), s2. simpl. rewrite Hc, H1. auto.
Qed.

Lemma startsWith_spec (hay needle : string) :
  Qt.startsWith hay needle = true <-> exists post, hay = String.append needle post.
Proof.
  revert hay. induction needle as [|c n IH]; intros hay; simpl.
  - split; [intros _; now exists hay | reflexivity].
  - destruct hay as [|d hay].
    + split; [discriminate | intros [post H]; discriminate].
    + destruct (Ascii.eqb_spec c d) as [->|Hne].
      * rewrite IH. split; intros [post H]; exists post; [now rewrite H | now injection H].
      * split; [discriminate | intros [post H]; injection H as H1 H2; congruence].
Qed.

Lemma occursIn_spec (hay needle : string) :
  Qt.occursIn hay needle = true
  <-> exists pre post, hay = String.append pre (String.append needle post).
Proof.
  induction hay as [|d hay IH]; simpl.
  - destruct (Qt.startsWith EmptyString needle) eqn:E.
    + apply startsWith_spec in E as [post E].
      split; [intros _; exists EmptyString, post; exact E | reflexivity].
    + split; [discriminate|]. intros (pre & post & H).
      destruct pre; simpl in H.
      * assert (Qt.startsWith EmptyString needle = true) as E'
          by (apply startsWith_spec; now exists post).
        congruence.
      * discriminate.
  - destruct (Qt.startsWith (String d hay) needle) eqn:E.
    + apply startsWith_spec in E as [post E].
      split; [intros _; exists EmptyString, post; exact E | reflexivity].
    + rewrite IH. split.
      * intros (pre & post & ->). now exists (String d pre), post.
      * intros (pre & post & H). destruct pre as [|c pre]; simpl in H.
        -- assert (Qt.startsWith (String d hay) needle = true) as E'
             by (apply startsWith_spec; now exists post).
           congruence.
        -- injection H as _ H. now exists pre, post.
Qed.

Lemma contains_insensitive_spec (hay needle : string) :
  Qt.contains hay needle Qt.CaseInsensitive = true <-> ContainsCI hay needle.
Proof.
  unfold Qt.contains, ContainsCI. rewrite occursIn_spec. split.
  - intros (pre & post & H).
    apply foldCase_split in H as (s1 & s2 & -> & _ & H2).
    apply foldCase_split in H2 as (s3 & s4 & -> & H3 & _).
    now exists s1, s3, s4.
  - intros (pre & mid & post & -> & H).
    exists (Qt.foldCase pre), (Qt.foldCase post).
    now rewrite !foldCase_app, H.
Qed.

Lemma size_nonzero (s : string) :
  negb (Nat.eqb (Qt.size s) 0) = true <-> s <> EmptyString.
Proof.
  destruct s; simpl; split; try congruence; intros; try discriminate; reflexivity.
Qed.

Lemma equals_spec (s lit : string) : Qt.equals s lit = true <-> s = lit.
Proof. unfold Qt.equals. apply String.eqb_eq. Qed.

End StringFacts.

(* ===================================================================== *)
(** * The environment probe                                               *)
(* ===================================================================== *)

Section Probe.

Import LinuxDesktop.

Lemma value_delete_insert_empty (env : Qt.QProcessEnvironment) (k n : string) :
  Qt.value (delete k env) n = Qt.value (<[k := EmptyString]> env) n.
Proof.
  unfold Qt.value. destruct (decide (k = n)) as [->|Hne].
  - now rewrite lookup_delete_eq, lookup_insert_eq.
  - now rewrite lookup_delete_ne, lookup_insert_ne.
Qed.

Lemma LinuxDesktop_ext (e1 e2 : Qt.QProcessEnvironment) :
  (forall n, Qt.value e1 n = Qt.value e2 n) -> LinuxDesktop e1 = LinuxDesktop e2.
Proof. intros H. unfold LinuxDesktop. now rewrite !H. Qed.

Lemma gnome_test_spec (env : Qt.QProcessEnvironment) :
  (negb (Nat.eqb (Qt.size (Qt.value env "GNOME_DESKTOP_SESSION_ID")) 0)
   || Qt.contains (Qt.value env "XDG_CURRENT_DESKTOP") "Gnome" Qt.CaseInsensitive)%bool = true
  <-> gnomeSignal env.
Proof.
  unfold gnomeSignal. rewrite orb_true_iff, size_nonzero, contains_insensitive_spec.
  reflexivity.
Qed.

Lemma kde_test_spec (env : Qt.QProcessEnvironment) :
  (negb (Nat.eqb (Qt.size (Qt.value env "KDE_FULL_SESSION")) 0)
   || Qt.equals (Qt.value env "DESKTOP_SESSION") "kde-plasma")%bool = true
  <-> kdeSignal env.
Proof.
  unfold kdeSignal. rewrite orb_true_iff, size_nonzero, equals_spec. reflexivity.
Qed.

Lemma wayland_test_spec (env : Qt.QProcessEnvironment) :
  (Qt.equals (Qt.value env "XDG_SESSION_TYPE") "wayland"
   || Qt.contains (Qt.value env "WAYLAND_DISPLAY") "wayland" Qt.CaseInsensitive)%bool = true
  <-> waylandSignal env.
Proof.
  unfold waylandSignal. rewrite orb_true_iff, equals_spec, contains_insensitive_spec.
  reflexivity.
Qed.

(** C3. For every environment the desktop kind is Gnome exactly when the
    GNOME signal is present (session id non-empty, or the current desktop
    contains gnome in any case), KDE exactly when it is absent and the KDE
    signal is present (full session non-empty, or desktop session equal to
    kde-plasma), and Other exactly when both are absent; in particular the
    kind is Gnome when both signals are present. *)
Theorem desktop_kind_classification (env : Qt.QProcessEnvironment) :
  (type (LinuxDesktop env) = Gnome <-> gnomeSignal env)
  /\ (type (LinuxDesktop env) = KDE <-> ~ gnomeSignal env /\ kdeSignal env)
  /\ (type (LinuxDesktop env) = Other <-> ~ gnomeSignal env /\ ~ kdeSignal env)
  /\ (gnomeSignal env -> kdeSignal env -> type (LinuxDesktop env) = Gnome).
Proof.
  pose proof (gnome_test_spec env) as HG. pose proof (kde_test_spec env) as HK.
  unfold type, LinuxDesktop. cbn [m_type initial].
  destruct (negb _ || Qt.contains _ _ _)%bool eqn:EG;
    [| destruct (negb _ || Qt.equals _ _)%bool eqn:EK ].
  - assert (gnomeSignal env) as G by (apply HG; reflexivity).
    repeat split; try tauto; try discriminate; intros; tauto.
  - assert (~ gnomeSignal env) as G by (intros G; apply HG in G; discriminate).
    assert (kdeSignal env) as K by (apply HK; reflexivity).
    repeat split; try tauto; try discriminate; intros; tauto.
  - assert (~ gnomeSignal env) as G by (intros G; apply HG in G; discriminate).
    assert (~ kdeSignal env) as K by (intros K; apply HK in K; discriminate).
    repeat split; try tauto; try discriminate; intros; tauto.
Qed.

Lemma desktop_kind_classification_witness :
  gnomeSignal bothDesktops /\ kdeSignal bothDesktops
  /\ type (LinuxDesktop bothDesktops) = Gnome.
Proof.
  assert (gnomeSignal bothDesktops) as G.
  { right. exists "ubuntu:"%string, "GNOME"%string, EmptyString. split; reflexivity. }
  assert (kdeSignal bothDesktops) as K.
  { left. vm_compute. discriminate. }
  split; [exact G | split; [exact K |]].
  exact (proj2 (proj2 (proj2 (desktop_kind_classification bothDesktops))) G K).
Defined.

(** C4. For every environment the compositor flag is set exactly when the
    session type equals wayland or the display socket name contains wayland
    in any case; a variable that is absent counts as one set to the empty
    string, and with no variable at all the classification is Other and
    not a compositor session. *)
Theorem compositor_session_classification (env : Qt.QProcessEnvironment) :
  (isWayland (LinuxDesktop env) = true <-> waylandSignal env)
  /\ (forall k : string, LinuxDesktop (delete k env) = LinuxDesktop (<[k := EmptyString]> env))
  /\ LinuxDesktop ∅ = mk Other false.
Proof.
  split; [| split].
  - unfold isWayland, LinuxDesktop. cbn [m_wayland]. apply wayland_test_spec.
  - intros k. apply LinuxDesktop_ext. intros n. apply value_delete_insert_empty.
  - reflexivity.
Qed.

End Probe.

(* ===================================================================== *)
(** * Rectangles                                                          *)
(* ===================================================================== *)

Section Rectangles.

Import Qt.

(** Case analysis on every test of a goal about rectangles, then linear
    arithmetic. *)
Ltac rect_cases :=
  repeat match goal with
         | |- context [if ?c then _ else _] => destruct c eqn:?
         | |- context [let '(_, _) := ?p in _] => destruct p eqn:?
         end.

Ltac rect_solve :=
  unfold united, intersected, isNull, isEmpty, isValid, span, QRect_xywh, QRect_null,
         width, height, x, y in *;
  cbn [x1 y1 x2 y2] in *;
  rect_cases;
  repeat match goal with
         | H : (_, _) = (_, _) |- _ => injection H as <- <-
         end;
  cbn [x1 y1 x2 y2] in *;
  try congruence; try (f_equal; lia); try lia.

Lemma united_null_l (a b : QRect) : isNull a = true -> united a b = b.
Proof. intros H. unfold united. now rewrite H. Qed.

Lemma united_null_r (a b : QRect) : isNull b = true -> isNull a = false -> united a b = a.
Proof. intros Hb Ha. unfold united. now rewrite Ha, Hb. Qed.

Lemma united_nonnull_r (a b : QRect) : isNull b = false -> isNull (united a b) = false.
Proof. destruct a, b. intros H. rect_solve. Qed.

Lemma united_nonnull_l (a b : QRect) : isNull a = false -> isNull (united a b) = false.
Proof. destruct a, b. intros H. rect_solve. Qed.

Lemma united_comm (a b : QRect) :
  isNull a = false -> isNull b = false -> united a b = united b a.
Proof. destruct a, b. intros Ha Hb. rect_solve. Qed.

Lemma span_ordered (a1 a2 : Z) : fst (span a1 a2) <= snd (span a1 a2) + 1.
Proof. unfold span. destruct (a2 - a1 + 1 <? 0) eqn:E; cbn [fst snd]; lia. Qed.

Lemma span_of_ordered (l r : Z) : l <= r + 1 -> span l r = (l, r).
Proof. intros H. unfold span. destruct (r - l + 1 <? 0) eqn:E; [lia | reflexivity]. Qed.

(** The union of two rectangles that are not null is the hull of their
    spans. *)
Lemma united_hull (a b : QRect) :
  isNull a = false -> isNull b = false ->
  united a b =
  mkQRect (Z.min (fst (span (x1 a) (x2 a))) (fst (span (x1 b) (x2 b))))
          (Z.min (fst (span (y1 a) (y2 a))) (fst (span (y1 b) (y2 b))))
          (Z.max (snd (span (x1 a) (x2 a))) (snd (span (x1 b) (x2 b))))
          (Z.max (snd (span (y1 a) (y2 a))) (snd (span (y1 b) (y2 b)))).
Proof.
  intros Ha Hb. unfold united. rewrite Ha, Hb.
  destruct (span (x1 a) (x2 a)), (span (x1 b) (x2 b)),
           (span (y1 a) (y2 a)), (span (y1 b) (y2 b)).
  reflexivity.
Qed.

Lemma span_hull (a1 a2 b1 b2 : Z) :
  span (Z.min (fst (span a1 a2)) (fst (span b1 b2)))
       (Z.max (snd (span a1 a2)) (snd (span b1 b2)))
  = (Z.min (fst (span a1 a2)) (fst (span b1 b2)),
     Z.max (snd (span a1 a2)) (snd (span b1 b2))).
Proof.
  apply span_of_ordered.
  pose proof (span_ordered a1 a2). pose proof (span_ordered b1 b2). lia.
Qed.

Lemma united_swap_nonnull (acc a b : QRect) :
  isNull acc = false -> isNull a = false -> isNull b = false ->
  united (united acc a) b = united (united acc b) a.
Proof.
  intros Hc Ha Hb.
  rewrite (united_hull (united acc a) b) by (auto using united_nonnull_l).
  rewrite (united_hull (united acc b) a) by (auto using united_nonnull_l).
  rewrite (united_hull acc a), (united_hull acc b) by assumption.
  cbn [x1 y1 x2 y2]. rewrite !span_hull. cbn [fst snd].
  f_equal; lia.
Qed.

(** Uniting two rectangles into an accumulator gives the same rectangle in
    either order, as soon as one of the three is not null. *)
Lemma united_swap (acc a b : QRect) :
  isNull acc = false \/ isNull a = false \/ isNull b = false ->
  united (united acc a) b = united (united acc b) a.
Proof.
  intros H.
  destruct (isNull acc) eqn:Hc, (isNull a) eqn:Ha, (isNull b) eqn:Hb.
  - destruct H as [H|[H|H]]; discriminate.
  - rewrite (united_null_l acc a Hc), (united_null_l acc b Hc).
    rewrite (united_null_l a b Ha). now rewrite united_null_r.
  - rewrite (united_null_l acc a Hc), (united_null_l acc b Hc).
    rewrite (united_null_l b a Hb). now rewrite united_null_r.
  - rewrite (united_null_l acc a Hc), (united_null_l acc b Hc).
    now apply united_comm.
  - rewrite (united_null_r acc a Ha Hc). rewrite (united_null_r acc b Hb Hc).
    now rewrite (united_null_r acc a Ha Hc).
  - rewrite (united_null_r acc a Ha Hc).
    rewrite (united_null_r (united acc b) a Ha); [reflexivity|].
    now apply united_nonnull_l.
  - rewrite (united_null_r acc b Hb Hc).
    rewrite (united_null_r (united acc a) b Hb); [reflexivity|].
    now apply united_nonnull_l.
  - now apply united_swap_nonnull.
Qed.

Lemma unitedGeometry_null_acc (l : list QScreen) (a b : QRect) :
  isNull a = true -> isNull b = true -> l <> [] ->
  fold_left (fun g s => united g (geometry s)) l a
  = fold_left (fun g s => united g (geometry s)) l b.
Proof.
  intros Ha Hb Hl. destruct l as [|s l]; [congruence|].
  cbn [fold_left]. now rewrite !united_null_l.
Qed.

Lemma Exists_nonempty {A} (P : A -> Prop) (l : list A) : Exists P l -> l <> [].
Proof. intros H; inversion H; congruence. Qed.

Lemma fold_united_perm (l l' : list QScreen) :
  Permutation l l' ->
  forall acc : QRect,
    isNull acc = false \/ Exists nonNullGeometry l ->
    fold_left (fun g s => united g (geometry s)) l acc
    = fold_left (fun g s => united g (geometry s)) l' acc.
Proof.
  induction 1 as [| s l l' HP IH | s t l | l l' l'' HP1 IH1 HP2 IH2]; intros acc Hacc.
  - reflexivity.
  - cbn [fold_left]. apply IH.
    destruct Hacc as [Hacc | Hacc].
    + left. now apply united_nonnull_l.
    + inversion Hacc as [? ? Hs | ? ? Hl]; subst.
      * left. now apply united_nonnull_r.
      * now right.
  - cbn [fold_left].
    destruct (isNull acc) eqn:Hc; [destruct (isNull (geometry s)) eqn:Hs;
      [destruct (isNull (geometry t)) eqn:Ht |] |].
    + (* the accumulator and both surfaces are null *)
      apply unitedGeometry_null_acc.
      * rewrite (united_null_l acc _ Hc). now rewrite united_null_l.
      * rewrite (united_null_l acc _ Hc). now rewrite united_null_l.
      * destruct Hacc as [Hacc | Hacc]; [discriminate|].
        inversion Hacc as [? ? H1 | ? ? H1]; subst;
          [unfold nonNullGeometry in H1; congruence|].
        inversion H1 as [? ? H2 | ? ? H2]; subst;
          [unfold nonNullGeometry in H2; congruence|].
        now apply Exists_nonempty in H2.
    + f_equal. apply united_swap. auto.
    + f_equal. apply united_swap. auto.
    + f_equal. apply united_swap. auto.
  - rewrite IH1 by assumption. apply IH2.
    destruct Hacc as [Hacc | Hacc]; [now left | right].
    apply List.Exists_exists in Hacc as (s & Hin & Hs).
    apply List.Exists_exists. exists s. split; [|assumption].
    now apply (Permutation_in _ HP1).
Qed.

(** The union of the geometries does not depend on the order in which the
    surfaces are listed, provided one of them is not null. *)
Lemma unitedGeometry_perm (l l' : list QScreen) :
  Permutation l l' -> Exists nonNullGeometry l -> unitedGeometry l = unitedGeometry l'.
Proof. intros HP HE. unfold unitedGeometry. apply fold_united_perm; auto. Qed.

Lemma unitedGeometry_all_null (l : list QScreen) (acc : QRect) :
  isNull acc = true -> Forall (fun s => isNull (geometry s) = true) l ->
  isNull (fold_left (fun g s => united g (geometry s)) l acc) = true.
Proof.
  intros Hacc Hl. revert acc Hacc.
  induction Hl as [|s l Hs Hl IH]; intros acc Hacc; cbn [fold_left]; [assumption|].
  apply IH. now rewrite united_null_l.
Qed.

Lemma nonNull_or_all_null (l : list QScreen) :
  Exists nonNullGeometry l \/ Forall (fun s => isNull (geometry s) = true) l.
Proof.
  induction l as [|s l [IH|IH]]; [right; constructor | left; now right |].
  destruct (isNull (geometry s)) eqn:Hs.
  - right. now constructor.
  - left. now left.
Qed.

(** Without any assumption: the unions of two orders are equal, or the
    surfaces are all null and so are both unions. *)
Lemma unitedGeometry_perm_or_null (l l' : list QScreen) :
  Permutation l l' ->
  unitedGeometry l = unitedGeometry l'
  \/ (isNull (unitedGeometry l) = true /\ isNull (unitedGeometry l') = true).
Proof.
  intros HP. destruct (nonNull_or_all_null l) as [HE|HF].
  - left. now apply unitedGeometry_perm.
  - right. split; apply unitedGeometry_all_null; try reflexivity; [assumption|].
    now apply (Permutation_Forall HP).
Qed.

(** Copying a rectangle that lies within a pixmap. *)
Lemma copy_within (d : QPixmapData) (rect : QRect) :
  0 <= x1 rect -> x1 rect <= x2 rect -> x2 rect < pm_width d ->
  0 <= y1 rect -> y1 rect <= y2 rect -> y2 rect < pm_height d ->
  copy (Some d) rect =
  Some (mkPixmapData (width rect) (height rect) (pm_devicePixelRatio d)
          (fun px py => pm_pixel d (x rect + px) (y rect + py))).
Proof.
  intros Hx0 Hx Hxw Hy0 Hy Hyh. destruct rect as [rx1 ry1 rx2 ry2]. cbn [x1 x2 y1 y2] in *.
  unfold copy, pixmapIsNull.
  replace (pm_width d <=? 0) with false by lia.
  replace (pm_height d <=? 0) with false by lia.
  cbn [orb].
  assert (isEmpty (mkQRect rx1 ry1 rx2 ry2) = false) as -> by rect_solve.
  cbn [negb].
  assert (intersected (QRect_xywh 0 0 (pm_width d) (pm_height d)) (mkQRect rx1 ry1 rx2 ry2)
          = mkQRect rx1 ry1 rx2 ry2) as -> by rect_solve.
  unfold toImage.
  assert (isNull (mkQRect rx1 ry1 rx2 ry2) = false) as -> by rect_solve.
  assert (intersected (mkQRect rx1 ry1 rx2 ry2) (QRect_xywh 0 0 (pm_width d) (pm_height d))
          = mkQRect rx1 ry1 rx2 ry2) as -> by rect_solve.
  reflexivity.
Qed.

(** Copying a rectangle that is not empty and overlaps a pixmap yields the
    overlap: never more than the rectangle, never more than the pixmap. *)
Lemma copy_overlap (d : QPixmapData) (rect : QRect) :
  0 < pm_width d -> 0 < pm_height d ->
  x1 rect <= x2 rect -> y1 rect <= y2 rect ->
  0 <= x2 rect -> x1 rect < pm_width d -> 0 <= y2 rect -> y1 rect < pm_height d ->
  exists img, copy (Some d) rect = Some img
    /\ pm_width img = Z.min (x2 rect) (pm_width d - 1) - Z.max (x1 rect) 0 + 1
    /\ pm_height img = Z.min (y2 rect) (pm_height d - 1) - Z.max (y1 rect) 0 + 1
    /\ pm_devicePixelRatio img = pm_devicePixelRatio d.
Proof.
  intros Hw Hh Hx Hy Hx0 Hxw Hy0 Hyh. destruct rect as [rx1 ry1 rx2 ry2]. cbn [x1 x2 y1 y2] in *.
  unfold copy, pixmapIsNull.
  replace (pm_width d <=? 0) with false by lia.
  replace (pm_height d <=? 0) with false by lia.
  cbn [orb].
  assert (isEmpty (mkQRect rx1 ry1 rx2 ry2) = false) as -> by rect_solve.
  cbn [negb].
  assert (intersected (QRect_xywh 0 0 (pm_width d) (pm_height d)) (mkQRect rx1 ry1 rx2 ry2)
          = mkQRect (Z.max rx1 0) (Z.max ry1 0)
                    (Z.min rx2 (pm_width d - 1)) (Z.min ry2 (pm_height d - 1))) as ->
    by rect_solve.
  unfold toImage.
  match goal with |- context [isNull ?r] => assert (isNull r = false) as -> by rect_solve end.
  match goal with |- context [intersected ?r ?b] =>
    assert (intersected r b = r) as -> by rect_solve end.
  eexists. split; [reflexivity|]. cbn [pm_width pm_height pm_devicePixelRatio].
  unfold width, height. cbn [x1 x2 y1 y2]. auto.
Qed.

End Rectangles.

(* ===================================================================== *)
(** * Running the effects                                                 *)
(* ===================================================================== *)

(** Unfolding the monad and the primitive actions. *)
Ltac run :=
  unfold bind, ret, emit, logError, logWarning, qDebug, QDBusInterface, call,
         QFile_remove, QPixmap_fromFile, QTemporaryFile_open, QTemporaryFile_destroy,
         seek, readAll, QImage_load, grabWindow, tr in *.

Section Effects.

Lemma applyRemote_trace (s : Sys) (e : RemoteEffect) : trace (applyRemote s e) = trace s.
Proof.
  destruct e as [p data | fd data]; cbn; [reflexivity|].
  destruct (descriptors s !! fd) as [[p off]|]; reflexivity.
Qed.

Lemma remote_trace (effects : list RemoteEffect) (s : Sys) :
  trace (fold_left applyRemote effects s) = trace s.
Proof.
  revert s. induction effects as [|e effects IH]; intros s; cbn; [reflexivity|].
  now rewrite IH, applyRemote_trace.
Qed.

(** The events of a run whose trace extends the initial one. *)
Lemma events_of_app {A} (m : M A) (s : Sys) (evs : list Event) :
  trace (final (m s)) = trace s ++ evs -> events_of m s = evs.
Proof. intros H. unfold events_of. rewrite H. apply drop_app_length. Qed.

(** A service that writes does not change which file a descriptor is open
    on. *)
Lemma applyRemote_descriptor (s : Sys) (e : RemoteEffect) (fd : Z) (p : string) (off : nat) :
  descriptors s !! fd = Some (p, off) ->
  exists off', descriptors (applyRemote s e) !! fd = Some (p, off').
Proof.
  intros H. destruct e as [q data | fd' data]; cbn; [eauto|].
  destruct (descriptors s !! fd') as [[q off']|] eqn:E; [|eauto].
  cbn. destruct (decide (fd' = fd)) as [->|Hne].
  - rewrite lookup_insert_eq. rewrite H in E. injection E as <- <-. eauto.
  - rewrite lookup_insert_ne by assumption. eauto.
Qed.

Lemma remote_descriptor (effects : list RemoteEffect) (s : Sys) (fd : Z) (p : string) (off : nat) :
  descriptors s !! fd = Some (p, off) ->
  exists off', descriptors (fold_left applyRemote effects s) !! fd = Some (p, off').
Proof.
  revert s off. induction effects as [|e effects IH]; intros s off H; cbn; [eauto|].
  destruct (applyRemote_descriptor s e fd p off H) as [off' H'].
  eapply IH. exact H'.
Qed.

(** The files and descriptors a service leaves do not depend on the trace. *)
Lemma remote_frame (effects : list RemoteEffect) (s : Sys) (t : list Event) :
  fold_left applyRemote effects (mkSys (files s) (descriptors s) t)
  = let s' := fold_left applyRemote effects s in mkSys (files s') (descriptors s') t.
Proof.
  revert s. induction effects as [|e effects IH]; intros s; cbn [fold_left]; [reflexivity|].
  assert (applyRemote (mkSys (files s) (descriptors s) t) e
          = mkSys (files (applyRemote s e)) (descriptors (applyRemote s e)) t) as ->.
  { destruct e as [q data | fd data]; cbn; [reflexivity|].
    destruct (descriptors s !! fd) as [[q off]|]; reflexivity. }
  apply IH.
Qed.

End Effects.

(* ===================================================================== *)
(** * The GNOME strategy                                                  *)
(* ===================================================================== *)

Section Gnome.

Lemma gnome_failure (w : World) (s : Sys) (reply : Qt.QDBusMessage)
    (effects : list RemoteEffect) :
  dbus w (gnomeRequest w) = (reply, effects) ->
  Qt.replyValue (Qt.QDBusReply_bool reply) = false ->
  grabScreenDBusGnome w s =
  (Qt.QPixmap_null,
   let s1 := fold_left applyRemote effects s in
   mkSys (files s1) (descriptors s1)
         (trace s ++ [EvDBusInterface gnomeInterface; EvDBusCall (gnomeRequest w);
                      EvLog Error ["Screenshot via GNOME DBus interface failed."%string]])).
Proof.
  intros Hd Hv. unfold grabScreenDBusGnome. run. cbn.
  fold gnomeInterface. fold (gnomePath w). fold (gnomeRequest w).
  rewrite Hd, Hv. cbn.
  rewrite (remote_frame effects s). cbn.
  now rewrite <- !app_assoc.
Qed.

Lemma gnome_success (w : World) (s : Sys) (reply : Qt.QDBusMessage)
    (effects : list RemoteEffect) :
  dbus w (gnomeRequest w) = (reply, effects) ->
  Qt.replyValue (Qt.QDBusReply_bool reply) = true ->
  grabScreenDBusGnome w s =
  let s1 := fold_left applyRemote effects s in
  (match files s1 !! gnomePath w with
   | None => Qt.QPixmap_null
   | Some content => Qt.fromImage (decodeImage w None content)
   end,
   mkSys (delete (gnomePath w) (files s1)) (descriptors s1)
         (trace s ++ [EvDBusInterface gnomeInterface; EvDBusCall (gnomeRequest w);
                      EvRemove (gnomePath w)])).
Proof.
  intros Hd Hv. unfold grabScreenDBusGnome. run. cbn.
  fold gnomeInterface. fold (gnomePath w). fold (gnomeRequest w).
  rewrite Hd, Hv. cbn.
  rewrite (remote_frame effects s). cbn.
  destruct (files (fold_left applyRemote effects s) !! gnomePath w);
    cbn; now rewrite <- !app_assoc.
Qed.

(** C7, as the code has it.  The GNOME strategy removes its temporary file
    when the reply is true, whether or not the image loads, and returns the
    image loaded from it (null when there is no file or it does not decode).
    When the reply is false, or the call fails, it returns the null pixmap
    and logs one error; it removes nothing, the files being as the service
    left them. *)
Theorem gnome_temporary_file (w : World) (s : Sys) :
  let r := grabScreenDBusGnome w s in
  let reply := Qt.QDBusReply_bool (fst (dbus w (gnomeRequest w))) in
  let s1 := fold_left applyRemote (snd (dbus w (gnomeRequest w))) s in
  (Qt.replyValue reply = true ->
     files (final r) = delete (gnomePath w) (files s1)
     /\ files (final r) !! gnomePath w = None
     /\ result r = match files s1 !! gnomePath w with
                   | None => Qt.QPixmap_null
                   | Some content => Qt.fromImage (decodeImage w None content)
                   end
     /\ events_of (grabScreenDBusGnome w) s =
        [EvDBusInterface gnomeInterface; EvDBusCall (gnomeRequest w); EvRemove (gnomePath w)])
  /\ (Qt.replyValue reply = false ->
      result r = Qt.QPixmap_null
      /\ files (final r) = files s1
      /\ events_of (grabScreenDBusGnome w) s =
         [EvDBusInterface gnomeInterface; EvDBusCall (gnomeRequest w);
          EvLog Error ["Screenshot via GNOME DBus interface failed."%string]]).
Proof.
  cbn zeta. destruct (dbus w (gnomeRequest w)) as [reply effects] eqn:Hd. cbn [fst snd].
  split; intros Hv.
  - pose proof (gnome_success w s reply effects Hd Hv) as Hrun. cbn zeta in Hrun.
    rewrite (events_of_app _ s _ (f_equal trace (f_equal snd Hrun))).
    rewrite Hrun. unfold result, final. cbn [fst snd files].
    repeat split. apply lookup_delete_eq.
  - pose proof (gnome_failure w s reply effects Hd Hv) as Hrun. cbn zeta in Hrun.
    rewrite (events_of_app _ s _ (f_equal trace (f_equal snd Hrun))).
    rewrite Hrun. unfold result, final. cbn [fst snd files]. auto.
Qed.

Lemma gnome_temporary_file_witness :
  Qt.replyValue (Qt.QDBusReply_bool (fst (dbus twinWorld (gnomeRequest twinWorld)))) = false
  /\ result (grabScreenDBusGnome twinWorld staleSys) = Qt.QPixmap_null
  /\ files (final (grabScreenDBusGnome twinWorld staleSys)) = files staleSys.
Proof.
  assert (Qt.replyValue (Qt.QDBusReply_bool (fst (dbus twinWorld (gnomeRequest twinWorld))))
          = false) as Hv by reflexivity.
  split; [exact Hv|].
  destruct (proj2 (gnome_temporary_file twinWorld staleSys) Hv) as (Hr & Hf & _).
  split; [exact Hr | exact Hf].
Defined.

(** C7 as the specification states it fails: GNOME Shell answers false while the
    file of an earlier run is at the temporary path; the result is null and
    the file is still there. *)
Lemma gnome_cleanup_counterexample :
  Qt.replyValue (Qt.QDBusReply_bool (fst (dbus twinWorld (gnomeRequest twinWorld)))) = false
  /\ Qt.pixmapIsNull (result (grabScreenDBusGnome twinWorld staleSys)) = true
  /\ files (final (grabScreenDBusGnome twinWorld staleSys)) !! gnomePath twinWorld
     = Some pngBytes.
Proof. vm_compute. auto. Qed.

End Gnome.

(* ===================================================================== *)
(** * The KDE strategy                                                    *)
(* ===================================================================== *)

Section Kde.

Lemma kde_open_failed (w : World) (s : Sys) :
  temporaryFile w = None ->
  grabScreenDBusKde w s =
  (Qt.QPixmap_null,
   mkSys (files s) (descriptors s)
         (trace s ++ [EvTemporaryFile None;
                      EvLog Debug ["Failed to create temporary file"%string]])).
Proof.
  intros Ht. unfold grabScreenDBusKde. run. rewrite Ht. cbn.
  now rewrite <- !app_assoc.
Qed.

Lemma kde_invalid_reply (w : World) (s : Sys) (p : string) (fd : Z)
    (reply : Qt.QDBusMessage) (effects : list RemoteEffect) :
  temporaryFile w = Some (p, fd) ->
  dbus w (kdeRequest fd) = (reply, effects) ->
  Qt.replyIsValid (Qt.QDBusReply_map reply) = false ->
  grabScreenDBusKde w s =
  (Qt.QPixmap_null,
   let s1 := fold_left applyRemote effects (opened p fd s) in
   mkSys (delete p (files s1)) (delete fd (descriptors s1))
         (trace s ++ [EvTemporaryFile (Some p); EvDBusInterface kdeInterface;
                      EvDBusCall (kdeRequest fd);
                      EvLog Debug ["Screenshot failed:"%string;
                                   Qt.replyErrorMessage (Qt.QDBusReply_map reply)]])).
Proof.
  intros Ht Hd Hv. unfold grabScreenDBusKde. run. rewrite Ht. cbn.
  fold kdeInterface. fold (kdeRequest fd). rewrite Hd, Hv. cbn.
  rewrite (remote_frame effects (opened p fd s)). cbn.
  now rewrite <- !app_assoc.
Qed.

Lemma kde_status_not_ok (w : World) (s : Sys) (p : string) (fd : Z)
    (reply : Qt.QDBusMessage) (effects : list RemoteEffect) :
  temporaryFile w = Some (p, fd) ->
  dbus w (kdeRequest fd) = (reply, effects) ->
  Qt.replyIsValid (Qt.QDBusReply_map reply) = true ->
  Qt.toString (Qt.at_key (Qt.replyValue (Qt.QDBusReply_map reply)) "status") <> "ok"%string ->
  grabScreenDBusKde w s =
  (Qt.QPixmap_null,
   let s1 := fold_left applyRemote effects (opened p fd s) in
   let results := Qt.replyValue (Qt.QDBusReply_map reply) in
   mkSys (delete p (files s1)) (delete fd (descriptors s1))
         (trace s ++ [EvTemporaryFile (Some p); EvDBusInterface kdeInterface;
                      EvDBusCall (kdeRequest fd);
                      EvLog Debug ["Screenshot failed with status:"%string;
                                   Qt.toString (Qt.at_key results "status")];
                      EvLog Debug ["Error message:"%string;
                                   Qt.toString (Qt.at_key results "error")]])).
Proof.
  intros Ht Hd Hv Hs. unfold grabScreenDBusKde. run. rewrite Ht. cbn.
  fold kdeInterface. fold (kdeRequest fd). rewrite Hd, Hv. cbn.
  assert (Qt.equals (Qt.toString (Qt.at_key (Qt.replyValue (Qt.QDBusReply_map reply)) "status"))
            "ok" = false) as ->.
  { destruct (Qt.equals _ _) eqn:E; [|reflexivity]. apply equals_spec in E. contradiction. }
  cbn. rewrite (remote_frame effects (opened p fd s)). cbn.
  now rewrite <- !app_assoc.
Qed.

Lemma kde_status_ok (w : World) (s : Sys) (p : string) (fd : Z)
    (reply : Qt.QDBusMessage) (effects : list RemoteEffect) :
  temporaryFile w = Some (p, fd) ->
  dbus w (kdeRequest fd) = (reply, effects) ->
  Qt.replyIsValid (Qt.QDBusReply_map reply) = true ->
  Qt.toString (Qt.at_key (Qt.replyValue (Qt.QDBusReply_map reply)) "status") = "ok"%string ->
  grabScreenDBusKde w s =
  (Qt.fromImage (decodeImage w (Some "PNG"%string) (received effects (opened p fd s) p)),
   let s1 := fold_left applyRemote effects (opened p fd s) in
   mkSys (delete p (files s1)) (delete fd (descriptors s1))
         (trace s ++ [EvTemporaryFile (Some p); EvDBusInterface kdeInterface;
                      EvDBusCall (kdeRequest fd)])).
Proof.
  intros Ht Hd Hv Hs. unfold grabScreenDBusKde. run. rewrite Ht. cbn.
  fold kdeInterface. fold (kdeRequest fd). rewrite Hd, Hv. cbn.
  rewrite Hs. cbn.
  rewrite (remote_frame effects (opened p fd s)). cbn.
  destruct (remote_descriptor effects (opened p fd s) fd p 0%nat) as [off Hoff].
  { unfold opened. cbn. apply lookup_insert_eq. }
  rewrite Hoff. cbn. run. cbn. rewrite lookup_insert_eq. cbn.
  unfold received. rewrite drop_0, !delete_insert_eq.
  now rewrite <- !app_assoc.
Qed.

(** C8. The KDE strategy returns an image that is not null only when the
    temporary file was opened, the reply is valid, its status is "ok" and
    the decoder yields an image.  On a valid reply with another status it
    returns the null pixmap after two debug lines, one with the status and
    one with the error message.  On "ok" it returns what the PNG decoder
    makes of the whole content of the temporary file, from its first byte,
    wherever the writes of the service left the offset; a failed decoding
    gives the null pixmap. *)
Theorem kde_strategy (w : World) (s : Sys) :
  let r := grabScreenDBusKde w s in
  (Qt.pixmapIsNull (result r) = false ->
   exists p fd,
     temporaryFile w = Some (p, fd)
     /\ let reply := Qt.QDBusReply_map (fst (dbus w (kdeRequest fd))) in
        Qt.replyIsValid reply = true
        /\ Qt.toString (Qt.at_key (Qt.replyValue reply) "status") = "ok"%string
        /\ Qt.pixmapIsNull
             (decodeImage w (Some "PNG"%string)
                (received (snd (dbus w (kdeRequest fd))) (opened p fd s) p)) = false)
  /\ (forall p fd,
        temporaryFile w = Some (p, fd) ->
        let reply := Qt.QDBusReply_map (fst (dbus w (kdeRequest fd))) in
        let results := Qt.replyValue reply in
        Qt.replyIsValid reply = true ->
        (Qt.toString (Qt.at_key results "status") <> "ok"%string ->
           result r = Qt.QPixmap_null
           /\ events_of (grabScreenDBusKde w) s =
              [EvTemporaryFile (Some p); EvDBusInterface kdeInterface;
               EvDBusCall (kdeRequest fd);
               EvLog Debug ["Screenshot failed with status:"%string;
                            Qt.toString (Qt.at_key results "status")];
               EvLog Debug ["Error message:"%string;
                            Qt.toString (Qt.at_key results "error")]])
        /\ (Qt.toString (Qt.at_key results "status") = "ok"%string ->
            let image := decodeImage w (Some "PNG"%string)
                           (received (snd (dbus w (kdeRequest fd))) (opened p fd s) p) in
            result r = Qt.fromImage image
            /\ (Qt.pixmapIsNull image = true -> result r = Qt.QPixmap_null)
            /\ (Qt.pixmapIsNull image = false -> result r = image)
            /\ events_of (grabScreenDBusKde w) s =
               [EvTemporaryFile (Some p); EvDBusInterface kdeInterface;
                EvDBusCall (kdeRequest fd)])).
Proof.
  cbn zeta. split.
  - intros Hnn. destruct (temporaryFile w) as [[p fd]|] eqn:Ht.
    + exists p, fd. split; [reflexivity|].
      destruct (dbus w (kdeRequest fd)) as [reply effects] eqn:Hd. cbn [fst snd].
      destruct (Qt.replyIsValid (Qt.QDBusReply_map reply)) eqn:Hv.
      * destruct (string_dec
                    (Qt.toString (Qt.at_key (Qt.replyValue (Qt.QDBusReply_map reply)) "status"))
                    "ok") as [Hs|Hs].
        -- rewrite (kde_status_ok w s p fd reply effects Ht Hd Hv Hs) in Hnn.
           unfold result in Hnn. cbn [fst] in Hnn. unfold Qt.fromImage in Hnn.
           split; [reflexivity|]. split; [assumption|].
           destruct (Qt.pixmapIsNull (decodeImage _ _ _)); [discriminate Hnn | reflexivity].
        -- rewrite (kde_status_not_ok w s p fd reply effects Ht Hd Hv Hs) in Hnn.
           discriminate Hnn.
      * rewrite (kde_invalid_reply w s p fd reply effects Ht Hd Hv) in Hnn.
        discriminate Hnn.
    + rewrite (kde_open_failed w s Ht) in Hnn. discriminate Hnn.
  - intros p fd Ht.
    destruct (dbus w (kdeRequest fd)) as [reply effects] eqn:Hd. cbn [fst snd].
    intros Hv. split; intros Hs.
    + pose proof (kde_status_not_ok w s p fd reply effects Ht Hd Hv Hs) as Hrun.
      cbn zeta in Hrun.
      rewrite (events_of_app _ s _ (f_equal trace (f_equal snd Hrun))).
      rewrite Hrun. auto.
    + pose proof (kde_status_ok w s p fd reply effects Ht Hd Hv Hs) as Hrun.
      cbn zeta in Hrun.
      rewrite (events_of_app _ s _ (f_equal trace (f_equal snd Hrun))).
      rewrite Hrun. unfold result. cbn [fst]. unfold Qt.fromImage.
      repeat split.
      * intros ->. reflexivity.
      * intros ->. reflexivity.
Qed.

(** KWin writes an image into the pipe and answers "ok": the image is the
    result, all of it having been read although the offset was past the
    bytes written.  KWin answers status "error": the result is null. *)
Lemma kde_strategy_witness :
  (temporaryFile twinWorld = Some ("/tmp/projecteur.aB12cd"%string, 7)
   /\ received (snd (dbus twinWorld (kdeRequest 7)))
        (opened "/tmp/projecteur.aB12cd" 7 emptySys) "/tmp/projecteur.aB12cd" = pngBytes
   /\ result (grabScreenDBusKde twinWorld emptySys) = Some (testImage 1280 1024 ratio1))
  /\ result (grabScreenDBusKde refusingWorld emptySys) = Qt.QPixmap_null.
Proof.
  split.
  - split; [reflexivity|]. split; [reflexivity|].
    destruct (kde_strategy twinWorld emptySys) as [_ H].
    destruct (H "/tmp/projecteur.aB12cd"%string 7 eq_refl eq_refl) as [_ Hok].
    destruct (Hok eq_refl) as (_ & _ & Himg & _).
    exact (Himg eq_refl).
  - destruct (kde_strategy refusingWorld emptySys) as [_ H].
    destruct (H "/tmp/projecteur.aB12cd"%string 7 eq_refl eq_refl) as [Herr _].
    refine (proj1 (Herr _)). vm_compute. discriminate.
Defined.

(** C10. When the temporary file cannot be opened the KDE strategy returns
    the null pixmap after one debug line: no bus object is made and no call
    is issued, and files and descriptors are as before. *)
Theorem kde_no_temporary_file (w : World) (s : Sys) :
  temporaryFile w = None ->
  let r := grabScreenDBusKde w s in
  result r = Qt.QPixmap_null
  /\ events_of (grabScreenDBusKde w) s =
     [EvTemporaryFile None; EvLog Debug ["Failed to create temporary file"%string]]
  /\ Forall (fun e => isBusEvent e = false) (events_of (grabScreenDBusKde w) s)
  /\ files (final r) = files s /\ descriptors (final r) = descriptors s.
Proof.
  intros Ht. cbn zeta.
  pose proof (kde_open_failed w s Ht) as Hrun.
  rewrite (events_of_app _ s _ (f_equal trace (f_equal snd Hrun))).
  rewrite Hrun. repeat split; repeat constructor.
Qed.

Lemma kde_no_temporary_file_witness :
  temporaryFile fullDiskWorld = None
  /\ result (grabScreenDBusKde fullDiskWorld emptySys) = Qt.QPixmap_null
  /\ events_of (grabScreenDBusKde fullDiskWorld) emptySys =
     [EvTemporaryFile None; EvLog Debug ["Failed to create temporary file"%string]].
Proof.
  split; [reflexivity|].
  destruct (kde_no_temporary_file fullDiskWorld emptySys eq_refl) as (Hr & He & _).
  split; [exact Hr | exact He].
Defined.

End Kde.

(* ===================================================================== *)
(** * The virtual-desktop strategy                                        *)
(* ===================================================================== *)

Section VirtualDesktop.

Lemma virtual_desktop_run (cfg : BuildConfig) (w : World) (screen : Qt.QScreen) (s : Sys) :
  grabScreenVirtualDesktop cfg w screen s =
  (if negb (Qt.pixmapIsNull (unionCapture cfg w))
   then Qt.copy (Qt.setDevicePixelRatio (unionCapture cfg w) (Qt.devicePixelRatio screen))
          (Qt.geometry screen)
   else unionCapture cfg w,
   mkSys (files s) (descriptors s) (trace s ++ [unionCaptureEvent cfg w])).
Proof.
  unfold grabScreenVirtualDesktop, unionCapture, unionCaptureEvent. run. cbn.
  destruct (Qt.pixmapIsNull _); reflexivity.
Qed.

Lemma unitedGeometry_snoc (l : list Qt.QScreen) (a : Qt.QScreen) :
  unitedGeometry (l ++ [a]) = Qt.united (unitedGeometry l) (Qt.geometry a).
Proof. unfold unitedGeometry. now rewrite fold_left_app. Qed.

(** C6. The virtual-desktop strategy captures, from the primary surface,
    the union of the geometries of all connected surfaces: a fold of
    QRect::united from the null rectangle, which does not depend on the
    order of the surfaces (one of them at least being not null; when all are
    null the union is a null rectangle in every order).  For the
    surfaces (0,0,1920,1080) and (1920,0,1280,1024) the union is
    (0,0,3200,1080), and a capture of that size targeting the second
    surface is cropped to the 1280 x 1024 pixels from (1920,0) on, with the
    device pixel ratio of the target.  When the capture is empty the
    strategy returns empty. *)
Theorem virtual_desktop_union (cfg : BuildConfig) (w : World) (screen : Qt.QScreen) (s : Sys) :
  let r := grabScreenVirtualDesktop cfg w screen s in
  unitedGeometry [] = Qt.QRect_null
  /\ (forall l a, unitedGeometry (l ++ [a]) = Qt.united (unitedGeometry l) (Qt.geometry a))
  /\ events_of (grabScreenVirtualDesktop cfg w screen) s = [unionCaptureEvent cfg w]
  /\ (forall l' : list Qt.QScreen,
        Permutation (screens w) l' -> Exists nonNullGeometry (screens w) ->
        unitedGeometry l' = unitedGeometry (screens w))
  /\ (forall l' : list Qt.QScreen,
        Permutation (screens w) l' ->
        unitedGeometry l' = unitedGeometry (screens w)
        \/ (Qt.isNull (unitedGeometry l') = true
            /\ Qt.isNull (unitedGeometry (screens w)) = true))
  /\ (forall l' : list Qt.QScreen,
        Permutation (map Qt.geometry l') [exampleR1; exampleR2] ->
        unitedGeometry l' = Qt.QRect_xywh 0 0 3200 1080)
  /\ (map Qt.geometry (screens w) = [exampleR1; exampleR2] ->
      Qt.geometry screen = exampleR2 ->
      forall d : Qt.QPixmapData,
        unionCapture cfg w = Some d -> Qt.pm_width d = 3200 -> Qt.pm_height d = 1080 ->
        exists img : Qt.QPixmapData,
          result r = Some img
          /\ Qt.pm_width img = 1280 /\ Qt.pm_height img = 1024
          /\ Qt.pm_devicePixelRatio img = Qt.devicePixelRatio screen
          /\ forall px py, Qt.pm_pixel img px py = Qt.pm_pixel d (1920 + px) (0 + py))
  /\ (Qt.pixmapIsNull (unionCapture cfg w) = true ->
      result r = unionCapture cfg w /\ Qt.pixmapIsNull (result r) = true).
Proof.
  cbn zeta. rewrite virtual_desktop_run. unfold result. cbn [fst].
  split; [reflexivity|]. split; [exact unitedGeometry_snoc|].
  split; [apply events_of_app; now rewrite virtual_desktop_run|].
  split; [intros l' HP HE; symmetry; now apply unitedGeometry_perm|].
  split; [intros l' HP;
          destruct (unitedGeometry_perm_or_null _ _ HP) as [->|[? ?]]; auto|].
  split; [|split].
  - intros l' HP.
    assert (forall a b : Qt.QScreen, Qt.geometry a = exampleR1 -> Qt.geometry b = exampleR2 ->
              unitedGeometry [a; b] = Qt.QRect_xywh 0 0 3200 1080) as Hab.
    { intros a b Ha Hb. unfold unitedGeometry. cbn [fold_left]. rewrite Ha, Hb. reflexivity. }
    assert (Exists nonNullGeometry l') as HE.
    { destruct l' as [|a l']; [apply Permutation_nil in HP; discriminate|].
      left. unfold nonNullGeometry.
      assert (In (Qt.geometry a) [exampleR1; exampleR2]) as Hin
        by (apply (Permutation_in _ HP); now left).
      destruct Hin as [<-|[<-|[]]]; reflexivity. }
    pose proof (Permutation_length HP) as Hlen. rewrite length_map in Hlen.
    destruct l' as [|a [|b [|c l']]]; try discriminate Hlen.
    cbn [map] in HP. apply Permutation_length_2_inv in HP as [HP|HP].
    + injection HP as Ha Hb. now apply Hab.
    + injection HP as Ha Hb.
      rewrite (unitedGeometry_perm [a; b] [b; a]) by (auto using perm_swap).
      now apply Hab.
  - intros Hs Hg d Hd Hw Hh. rewrite Hd.
    unfold Qt.pixmapIsNull, Qt.setDevicePixelRatio, Qt.pixmapIsNull. rewrite Hw, Hh. cbn - [Qt.copy].
    rewrite Hg, copy_within; cbn; try lia.
    eexists. split; [reflexivity|]. cbn. auto.
  - intros Hn. rewrite Hn. cbn. auto.
Qed.

Lemma virtual_desktop_union_witness :
  Permutation (screens twinWorld) [screenRight; screenLeft]
  /\ Exists nonNullGeometry (screens twinWorld)
  /\ unitedGeometry [screenRight; screenLeft] = Qt.QRect_xywh 0 0 3200 1080
  /\ unionCapture qt5 twinWorld = Some (testImage 3200 1080 ratio1)
  /\ exists img : Qt.QPixmapData,
       result (grabScreenVirtualDesktop qt5 twinWorld screenRight emptySys) = Some img
       /\ Qt.pm_width img = 1280 /\ Qt.pm_height img = 1024
       /\ Qt.pm_devicePixelRatio img = Qt.devicePixelRatio screenRight
       /\ forall px py, Qt.pm_pixel img px py = Qt.pm_pixel (testImage 3200 1080 ratio1) (1920 + px) (0 + py).
Proof.
  destruct (virtual_desktop_union qt5 twinWorld screenRight emptySys)
    as (_ & _ & _ & Hperm & _ & Hex & Hcrop & _).
  assert (Permutation (screens twinWorld) [screenRight; screenLeft]) as HP
    by apply perm_swap.
  assert (Exists nonNullGeometry (screens twinWorld)) as HE
    by (left; reflexivity).
  split; [exact HP|]. split; [exact HE|].
  split; [rewrite (Hperm _ HP HE); reflexivity|].
  split; [reflexivity|].
  exact (Hcrop eq_refl eq_refl (testImage 3200 1080 ratio1) eq_refl eq_refl eq_refl).
Defined.

End VirtualDesktop.

(* ===================================================================== *)
(** * The capture dispatcher                                              *)
(* ===================================================================== *)

Section Dispatcher.

Import LinuxDesktop.

Lemma gnome_trace (w : World) (s : Sys) : extendsWithoutGrab (grabScreenDBusGnome w s) s.
Proof.
  destruct (dbus w (gnomeRequest w)) as [reply effects] eqn:Hd.
  destruct (Qt.replyValue (Qt.QDBusReply_bool reply)) eqn:Hv.
  - rewrite (gnome_success w s reply effects Hd Hv). eexists. split; [reflexivity|].
    repeat constructor.
  - rewrite (gnome_failure w s reply effects Hd Hv). eexists. split; [reflexivity|].
    repeat constructor.
Qed.

Lemma kde_trace (w : World) (s : Sys) : extendsWithoutGrab (grabScreenDBusKde w s) s.
Proof.
  destruct (temporaryFile w) as [[p fd]|] eqn:Ht.
  - destruct (dbus w (kdeRequest fd)) as [reply effects] eqn:Hd.
    destruct (Qt.replyIsValid (Qt.QDBusReply_map reply)) eqn:Hv.
    + destruct (string_dec
                  (Qt.toString (Qt.at_key (Qt.replyValue (Qt.QDBusReply_map reply)) "status"))
                  "ok") as [Hs|Hs].
      * rewrite (kde_status_ok w s p fd reply effects Ht Hd Hv Hs).
        eexists. split; [reflexivity|]. repeat constructor.
      * rewrite (kde_status_not_ok w s p fd reply effects Ht Hd Hv Hs).
        eexists. split; [reflexivity|]. repeat constructor.
    + rewrite (kde_invalid_reply w s p fd reply effects Ht Hd Hv).
      eexists. split; [reflexivity|]. repeat constructor.
  - rewrite (kde_open_failed w s Ht). eexists. split; [reflexivity|]. repeat constructor.
Qed.

(** grabScreenWayland: the image of the strategy of the desktop, cropped
    when it is not null. *)
Lemma wayland_run (cfg : BuildConfig) (w : World) (this : t) (screen : Qt.QScreen) (s : Sys) :
  HAS_Qt_DBus cfg = true ->
  grabScreenWayland cfg w this screen s =
  let r := match type this with
           | Gnome => grabScreenDBusGnome w s
           | KDE => grabScreenDBusKde w s
           | Other =>
               (Qt.QPixmap_null,
                mkSys (files s) (descriptors s)
                  (trace s ++ [EvLog Warning
                     ["Currently zoom on Wayland is only supported via DBus on KDE and GNOME."%string]]))
           end in
  (if Qt.pixmapIsNull (fst r) then fst r else Qt.copy (fst r) (Qt.geometry screen), snd r).
Proof.
  intros Hb. unfold grabScreenWayland. rewrite Hb. unfold bind at 1. unfold ret at 1.
  destruct (type this).
  - destruct (grabScreenDBusKde w s); reflexivity.
  - destruct (grabScreenDBusGnome w s); reflexivity.
  - reflexivity.
Qed.

Lemma wayland_without_dbus (cfg : BuildConfig) (w : World) (this : t) (screen : Qt.QScreen)
    (s : Sys) :
  HAS_Qt_DBus cfg = false ->
  grabScreenWayland cfg w this screen s =
  (Qt.QPixmap_null,
   mkSys (files s) (descriptors s)
     (trace s ++ [EvLog Warning
        [("Projecteur was compiled without Qt DBus. Currently zoom on Wayland is "
          ++ "only supported via DBus on KDE and GNOME.")%string]])).
Proof. intros Hb. unfold grabScreenWayland. rewrite Hb. reflexivity. Qed.

Lemma wayland_trace (cfg : BuildConfig) (w : World) (this : t) (screen : Qt.QScreen) (s : Sys) :
  extendsWithoutGrab (grabScreenWayland cfg w this screen s) s.
Proof.
  destruct (HAS_Qt_DBus cfg) eqn:Hb.
  - rewrite (wayland_run cfg w this screen s Hb). cbn zeta. cbn [snd].
    destruct (type this).
    + apply kde_trace.
    + apply gnome_trace.
    + eexists. split; [reflexivity|]. repeat constructor.
  - rewrite (wayland_without_dbus cfg w this screen s Hb).
    eexists. split; [reflexivity|]. repeat constructor.
Qed.

(** C1. On a target that is not null grabScreen decides in this order: in
    a compositor session it runs grabScreenWayland and the window system is
    asked for no capture at all; else, on a virtual desktop (from Qt 5.11
    on: the primary surface reports more than one virtual sibling) it runs
    the virtual-desktop strategy, whose one action is the capture of the
    union; else it performs the native grab of the target.  Outside a
    compositor session no bus object is made and no bus call is issued. *)
Theorem grabScreen_decision_order (cfg : BuildConfig) (w : World) (this : t)
    (screen : Qt.QScreen) (s : Sys) :
  let run := grabScreen cfg w this (Some screen) in
  (isWayland this = true ->
     run s = grabScreenWayland cfg w this screen s
     /\ Forall (fun e => isGrabEvent e = false) (events_of run s))
  /\ (isWayland this = false -> isVirtualDesktop cfg w = true ->
      run s = grabScreenVirtualDesktop cfg w screen s
      /\ events_of run s = [unionCaptureEvent cfg w])
  /\ (isWayland this = false -> isVirtualDesktop cfg w = false ->
      result (run s) = platformGrabWindow w screen 0 0 0 (-1) (-1)
      /\ events_of run s = [EvGrabWindow screen 0 0 0 (-1) (-1)])
  /\ (QT_VERSION_CHECK 5 11 0 <= QT_VERSION cfg ->
      (isVirtualDesktop cfg w = true
       <-> (1 < List.length (virtualSiblings w (primaryScreen w)))%nat))
  /\ (QT_VERSION cfg < QT_VERSION_CHECK 5 11 0 ->
      isVirtualDesktop cfg w = desktopIsVirtualDesktop w)
  /\ (isWayland this = false ->
      Forall (fun e => isBusEvent e = false) (events_of run s)).
Proof.
  cbn zeta. split; [|split; [|split; [|split; [|split]]]].
  - intros Hw. split.
    + unfold grabScreen. now rewrite Hw.
    + destruct (wayland_trace cfg w this screen s) as (evs & Ht & Hf).
      rewrite (events_of_app _ s evs); [assumption|].
      unfold grabScreen, final. now rewrite Hw.
  - intros Hw Hv. split.
    + unfold grabScreen. now rewrite Hw, Hv.
    + apply events_of_app. unfold grabScreen, final. rewrite Hw, Hv.
      now rewrite virtual_desktop_run.
  - intros Hw Hv. split.
    + unfold grabScreen. now rewrite Hw, Hv.
    + apply events_of_app. unfold grabScreen, final. now rewrite Hw, Hv.
  - intros Hq. unfold isVirtualDesktop. replace (_ <=? _) with true by lia.
    apply Nat.ltb_lt.
  - intros Hq. unfold isVirtualDesktop. now replace (_ <=? _) with false by lia.
  - intros Hw. unfold grabScreen. rewrite Hw.
    destruct (isVirtualDesktop cfg w).
    + rewrite (events_of_app _ s [unionCaptureEvent cfg w]).
      * repeat constructor.
      * unfold final. now rewrite virtual_desktop_run.
    + rewrite (events_of_app _ s [EvGrabWindow screen 0 0 0 (-1) (-1)]).
      * repeat constructor.
      * reflexivity.
Qed.

(** C2. Whatever the desktop kind and the session flag, a null target
    gives the null pixmap and leaves the state as it was: no file, no
    descriptor and no event is added. *)
Theorem grabScreen_null_target (cfg : BuildConfig) (w : World) (this : t) (s : Sys) :
  grabScreen cfg w this None s = (Qt.QPixmap_null, s)
  /\ events_of (grabScreen cfg w this None) s = []
  /\ Qt.pixmapIsNull (result (grabScreen cfg w this None s)) = true.
Proof.
  split; [reflexivity|]. split; [|reflexivity].
  apply events_of_app. cbn. now rewrite app_nil_r.
Qed.

(** C5. In a compositor session on a desktop that is neither GNOME nor
    KDE, grabScreen on a target that is not null returns the null pixmap,
    its only event is one warning, and files and descriptors are left as
    they were. *)
Theorem wayland_unknown_desktop (cfg : BuildConfig) (w : World) (this : t)
    (screen : Qt.QScreen) (s : Sys) :
  isWayland this = true -> type this = Other ->
  let r := grabScreen cfg w this (Some screen) s in
  result r = Qt.QPixmap_null
  /\ (exists text, events_of (grabScreen cfg w this (Some screen)) s = [EvLog Warning [text]])
  /\ filter (fun e => isBusEvent e) (events_of (grabScreen cfg w this (Some screen)) s) = []
  /\ files (final r) = files s /\ descriptors (final r) = descriptors s.
Proof.
  intros Hw Ht. cbn zeta.
  assert (exists text,
            grabScreen cfg w this (Some screen) s =
            (Qt.QPixmap_null,
             mkSys (files s) (descriptors s) (trace s ++ [EvLog Warning [text]])))
    as [text Hrun].
  { unfold grabScreen. rewrite Hw. destruct (HAS_Qt_DBus cfg) eqn:Hb.
    - rewrite (wayland_run cfg w this screen s Hb), Ht. eexists. reflexivity.
    - rewrite (wayland_without_dbus cfg w this screen s Hb). eexists. reflexivity. }
  assert (events_of (grabScreen cfg w this (Some screen)) s = [EvLog Warning [text]]) as Hev
    by (apply events_of_app; now rewrite Hrun).
  rewrite Hev, Hrun. repeat split; eauto.
Qed.

Lemma wayland_unknown_desktop_witness :
  isWayland otherWayland = true /\ type otherWayland = Other
  /\ result (grabScreen qt5 twinWorld otherWayland (Some screenRight) emptySys) = Qt.QPixmap_null
  /\ filter (fun e => isBusEvent e)
       (events_of (grabScreen qt5 twinWorld otherWayland (Some screenRight)) emptySys) = [].
Proof.
  split; [reflexivity|]. split; [reflexivity|].
  destruct (wayland_unknown_desktop qt5 twinWorld otherWayland screenRight emptySys
              eq_refl eq_refl) as (Hr & _ & Hb & _).
  split; [exact Hr | exact Hb].
Defined.

Lemma grabScreen_decision_order_witness :
  (isWayland x11Desktop = false /\ isVirtualDesktop qt5 twinWorld = true
   /\ events_of (grabScreen qt5 twinWorld x11Desktop (Some screenRight)) emptySys
      = [unionCaptureEvent qt5 twinWorld])
  /\ (isVirtualDesktop qt5 hidpiWorld = false
      /\ events_of (grabScreen qt5 hidpiWorld x11Desktop (Some hidpiScreen)) emptySys
         = [EvGrabWindow hidpiScreen 0 0 0 (-1) (-1)])
  /\ (isWayland kdeWayland = true
      /\ Forall (fun e => isGrabEvent e = false)
           (events_of (grabScreen qt5 twinWorld kdeWayland (Some screenRight)) emptySys)).
Proof.
  pose proof (grabScreen_decision_order qt5 twinWorld x11Desktop screenRight emptySys)
    as (_ & Hv & _).
  pose proof (grabScreen_decision_order qt5 hidpiWorld x11Desktop hidpiScreen emptySys)
    as (_ & _ & Hn & _).
  pose proof (grabScreen_decision_order qt5 twinWorld kdeWayland screenRight emptySys)
    as (Hw & _).
  split; [|split].
  - split; [reflexivity|]. split; [reflexivity|]. exact (proj2 (Hv eq_refl eq_refl)).
  - split; [reflexivity|]. exact (proj2 (Hn eq_refl eq_refl)).
  - split; [reflexivity|]. exact (proj2 (Hw eq_refl)).
Defined.

(** The size of a crop that overlaps, and of a crop that lies within. *)
Lemma crop_dimensions (d : Qt.QPixmapData) (rect : Qt.QRect) :
  Qt.pixmapIsNull (Some d) = false ->
  (Overlaps d rect ->
     Qt.pixmapIsNull (Qt.copy (Some d) rect) = false
     /\ Qt.pixmapWidth (Qt.copy (Some d) rect) <= Qt.width rect
     /\ Qt.pixmapHeight (Qt.copy (Some d) rect) <= Qt.height rect)
  /\ (Within d rect -> Qt.pixmapSize (Qt.copy (Some d) rect) = rectSize rect).
Proof.
  intros Hd. cbn in Hd. apply orb_false_iff in Hd as [Hw Hh].
  apply Z.leb_gt in Hw, Hh. split.
  - intros (Hx & Hy & Hx0 & Hxw & Hy0 & Hyh).
    destruct (copy_overlap d rect Hw Hh Hx Hy Hx0 Hxw Hy0 Hyh) as (img & -> & Ew & Eh & _).
    unfold Qt.pixmapIsNull, Qt.pixmapWidth, Qt.pixmapHeight, Qt.width, Qt.height.
    rewrite Ew, Eh. repeat split; [|lia|lia].
    apply orb_false_iff. split; apply Z.leb_gt; lia.
  - intros (Hx0 & Hx & Hxw & Hy0 & Hy & Hyh).
    now rewrite (copy_within d rect Hx0 Hx Hxw Hy0 Hy Hyh).
Qed.

Lemma setDevicePixelRatio_nonnull (pm : Qt.QPixmap) (ratio : Qt.qreal) :
  Qt.pixmapIsNull pm = false ->
  exists d, Qt.setDevicePixelRatio pm ratio = Some d /\ Qt.pixmapIsNull (Some d) = false.
Proof.
  intros H. unfold Qt.setDevicePixelRatio. rewrite H.
  destruct pm as [d|]; [|discriminate H]. eexists. split; [reflexivity|exact H].
Qed.

(** C9, as the code has it.  On the compositor-bus and virtual-desktop
    paths a result that is not null is the captured image cropped to the
    geometry of the target, read in the pixel coordinates of the captured
    image: where that rectangle overlaps the image the result is no larger
    than the geometry, and where it lies within the image the result has
    exactly the size of the geometry.  On the native path the result is the
    capture of the window system as it is. *)
Theorem capture_dimensions (cfg : BuildConfig) (w : World) (this : t)
    (screen : Qt.QScreen) (s : Sys) :
  let pm := result (grabScreen cfg w this (Some screen) s) in
  let rect := Qt.geometry screen in
  ((isWayland this = true \/ isVirtualDesktop cfg w = true) ->
   Qt.pixmapIsNull pm = false ->
   exists d,
     capturedImage cfg w this screen s = Some d
     /\ pm = Qt.copy (Some d) rect
     /\ (Overlaps d rect ->
         Qt.pixmapWidth pm <= Qt.width rect /\ Qt.pixmapHeight pm <= Qt.height rect)
     /\ (Within d rect -> Qt.pixmapSize pm = rectSize rect))
  /\ (isWayland this = false -> isVirtualDesktop cfg w = false ->
      pm = platformGrabWindow w screen 0 0 0 (-1) (-1)).
Proof.
  cbn zeta. split.
  - intros Hpath Hnn.
    assert (exists d, capturedImage cfg w this screen s = Some d
                      /\ Qt.pixmapIsNull (Some d) = false
                      /\ result (grabScreen cfg w this (Some screen) s)
                         = Qt.copy (Some d) (Qt.geometry screen)) as (d & Hc & Hd & Hpm).
    { unfold capturedImage, grabScreen in *. destruct (isWayland this) eqn:Hw.
      - destruct (HAS_Qt_DBus cfg) eqn:Hb.
        + rewrite (wayland_run cfg w this screen s Hb) in *. cbn zeta in *.
          unfold result in *. cbn [fst] in *.
          destruct (type this).
          * destruct (Qt.pixmapIsNull (fst (grabScreenDBusKde w s))) eqn:Hn; [congruence|].
            destruct (fst (grabScreenDBusKde w s)) as [d|]; [|discriminate Hn]. eauto.
          * destruct (Qt.pixmapIsNull (fst (grabScreenDBusGnome w s))) eqn:Hn; [congruence|].
            destruct (fst (grabScreenDBusGnome w s)) as [d|]; [|discriminate Hn]. eauto.
          * discriminate Hnn.
        + rewrite (wayland_without_dbus cfg w this screen s Hb) in Hnn. discriminate Hnn.
      - destruct Hpath as [Hpath|Hpath]; [discriminate Hpath|]. rewrite Hpath in *.
        rewrite virtual_desktop_run in *. unfold result in *. cbn [fst] in *.
        destruct (Qt.pixmapIsNull (unionCapture cfg w)) eqn:Hn; cbn [negb] in *; [congruence|].
        destruct (setDevicePixelRatio_nonnull _ (Qt.devicePixelRatio screen) Hn)
          as (d & Hset & Hd).
        rewrite Hset. eauto. }
    exists d. rewrite Hpm.
    destruct (crop_dimensions d (Qt.geometry screen) Hd) as [Hov Hin].
    split; [assumption|]. split; [reflexivity|]. split; [|assumption].
    intros Hovl. apply Hov in Hovl. tauto.
  - intros Hw Hv. unfold grabScreen. now rewrite Hw, Hv.
Qed.

(** KWin captures the right surface on a compositor session and the target
    is the right surface; the virtual desktop is captured whole and the
    target is the right surface. *)
Lemma capture_dimensions_witness :
  (Qt.pixmapIsNull (result (grabScreen qt5 twinWorld x11Desktop (Some screenRight) emptySys))
   = false
   /\ Qt.pixmapSize (result (grabScreen qt5 twinWorld x11Desktop (Some screenRight) emptySys))
      = (1280, 1024))
  /\ result (grabScreen qt5 hidpiWorld x11Desktop (Some hidpiScreen) emptySys)
     = Some (testImage 3840 2160 ratio2).
Proof.
  split.
  - assert (Qt.pixmapIsNull
              (result (grabScreen qt5 twinWorld x11Desktop (Some screenRight) emptySys))
            = false) as Hnn by reflexivity.
    split; [exact Hnn|].
    destruct (proj1 (capture_dimensions qt5 twinWorld x11Desktop screenRight emptySys)
                (or_intror eq_refl) Hnn) as (d & Hc & _ & _ & Hin).
    injection Hc as <-. apply Hin. vm_compute. repeat split; discriminate.
  - exact (proj2 (capture_dimensions qt5 hidpiWorld x11Desktop hidpiScreen emptySys)
             eq_refl eq_refl).
Defined.

(** C9 as the specification states it fails on both sides.  KWin captures the active
    surface of 1280 x 1024 pixels while the target is the left surface of
    1920 x 1080: the result is not null and smaller than the geometry of
    the target.  On one surface at ratio 2 the native grab yields 3840 x
    2160 device pixels for a geometry of 1920 x 1080: the result is larger. *)
Lemma capture_dimensions_counterexample :
  (let pm := result (grabScreen qt5 twinWorld kdeWayland (Some screenLeft) emptySys) in
   Qt.pixmapIsNull pm = false
   /\ Qt.pixmapSize pm = (1280, 1024)
   /\ rectSize (Qt.geometry screenLeft) = (1920, 1080))
  /\ (let pm := result (grabScreen qt5 hidpiWorld x11Desktop (Some hidpiScreen) emptySys) in
      Qt.pixmapIsNull pm = false
      /\ Qt.pixmapSize pm = (3840, 2160)
      /\ rectSize (Qt.geometry hidpiScreen) = (1920, 1080)).
Proof. vm_compute. auto 10. Qed.

End Dispatcher.

(* ===================================================================== *)
(** * Further properties of the environment probe                         *)
(* ===================================================================== *)

Section ProbeMore.

Import LinuxDesktop.

(** X1. Each half of the classification reads its own variables only.
    The desktop kind is a function of KDE_FULL_SESSION,
    GNOME_DESKTOP_SESSION_ID, DESKTOP_SESSION and XDG_CURRENT_DESKTOP; the
    session flag is a function of WAYLAND_DISPLAY and XDG_SESSION_TYPE.
    Environments that agree on those variables, absent counting as empty,
    agree on that half, whatever else they hold. *)
Theorem classification_footprint (e1 e2 : Qt.QProcessEnvironment) :
  ((forall n, In n desktopVariables -> Qt.value e1 n = Qt.value e2 n) ->
   type (LinuxDesktop e1) = type (LinuxDesktop e2))
  /\ ((forall n, In n sessionVariables -> Qt.value e1 n = Qt.value e2 n) ->
      isWayland (LinuxDesktop e1) = isWayland (LinuxDesktop e2)).
Proof.
  split; intros H.
  - unfold type, LinuxDesktop. cbn [m_type].
    rewrite (H "KDE_FULL_SESSION"%string), (H "GNOME_DESKTOP_SESSION_ID"%string),
      (H "DESKTOP_SESSION"%string), (H "XDG_CURRENT_DESKTOP"%string);
      [reflexivity | cbn; auto ..].
  - unfold isWayland, LinuxDesktop. cbn [m_wayland].
    rewrite (H "WAYLAND_DISPLAY"%string), (H "XDG_SESSION_TYPE"%string);
      [reflexivity | cbn; auto ..].
Qed.

Lemma classification_footprint_witness :
  type (LinuxDesktop (<["WAYLAND_DISPLAY"%string := "wayland-0"%string]> bothDesktops))
  = type (LinuxDesktop bothDesktops)
  /\ isWayland (LinuxDesktop (<["KDE_FULL_SESSION"%string := "true"%string]> waylandGnome))
     = isWayland (LinuxDesktop waylandGnome).
Proof.
  split.
  - apply (proj1 (classification_footprint _ _)).
    intros n Hn. cbn in Hn.
    destruct Hn as [<-|[<-|[<-|[<-|[]]]]]; reflexivity.
  - apply (proj2 (classification_footprint _ _)).
    intros n Hn. cbn in Hn.
    destruct Hn as [<-|[<-|[]]]; reflexivity.
Defined.

Lemma value_insert_eq (env : Qt.QProcessEnvironment) (k v : string) :
  Qt.value (<[k := v]> env) k = v.
Proof. unfold Qt.value. now rewrite lookup_insert_eq. Qed.

Lemma value_insert_ne (env : Qt.QProcessEnvironment) (k n v : string) :
  k <> n -> Qt.value (<[k := v]> env) n = Qt.value env n.
Proof. intros H. unfold Qt.value. now rewrite lookup_insert_ne. Qed.

(** X2. The case of the letters of XDG_CURRENT_DESKTOP and of
    WAYLAND_DISPLAY does not matter: two values of either variable that
    are equal up to case give the same classification. *)
Theorem classification_ignores_case (env : Qt.QProcessEnvironment) (v v' : string) :
  Qt.foldCase v = Qt.foldCase v' ->
  LinuxDesktop (<["XDG_CURRENT_DESKTOP"%string := v]> env)
  = LinuxDesktop (<["XDG_CURRENT_DESKTOP"%string := v']> env)
  /\ LinuxDesktop (<["WAYLAND_DISPLAY"%string := v]> env)
     = LinuxDesktop (<["WAYLAND_DISPLAY"%string := v']> env).
Proof.
  intros H. split; unfold LinuxDesktop.
  - rewrite !value_insert_eq. rewrite !value_insert_ne by discriminate.
    unfold Qt.contains. now rewrite H.
  - rewrite !value_insert_eq. rewrite !value_insert_ne by discriminate.
    unfold Qt.contains. now rewrite H.
Qed.

Lemma classification_ignores_case_witness :
  LinuxDesktop waylandGnome = LinuxDesktop waylandGnomeLower.
Proof.
  exact (proj1 (classification_ignores_case
                  (<["XDG_SESSION_TYPE"%string := "wayland"%string]> ∅)
                  "GNOME"%string "gnome"%string eq_refl)).
Defined.

End ProbeMore.

(* ===================================================================== *)
(** * The union of the surfaces as a bounding rectangle                   *)
(* ===================================================================== *)

Section Bounding.

Import Qt.

Ltac rect_unfold :=
  unfold Encloses, united, isNull, isValid, span in *; cbn [x1 y1 x2 y2] in *.

Ltac bool_cases :=
  repeat match goal with
         | |- context [if ?c then _ else _] => destruct c eqn:?
         end.

Lemma valid_bounds (r : QRect) :
  isValid r = true <-> x1 r <= x2 r /\ y1 r <= y2 r.
Proof. unfold isValid. rewrite andb_true_iff, !Z.leb_le. reflexivity. Qed.

(** Uniting keeps what the accumulator encloses. *)
Lemma united_keeps (acc b r : QRect) :
  isValid r = true -> Encloses acc r -> Encloses (united acc b) r.
Proof.
  intros Hr He. apply valid_bounds in Hr.
  destruct acc, b, r. rect_unfold. bool_cases; cbn [x1 y1 x2 y2]; lia.
Qed.

(** Uniting with a rectangle encloses it. *)
Lemma united_adds (acc r : QRect) :
  isValid r = true -> Encloses (united acc r) r.
Proof.
  intros Hr. apply valid_bounds in Hr.
  destruct acc, r. rect_unfold. bool_cases; cbn [x1 y1 x2 y2]; lia.
Qed.

Lemma fold_united_keeps (l : list QScreen) (acc r : QRect) :
  isValid r = true -> Encloses acc r ->
  Encloses (fold_left (fun g s => united g (geometry s)) l acc) r.
Proof.
  intros Hr. revert acc. induction l as [|s l IH]; intros acc He; cbn [fold_left].
  - assumption.
  - apply IH. now apply united_keeps.
Qed.

Lemma fold_united_encloses (l : list QScreen) (s : QScreen) (acc : QRect) :
  In s l -> isValid (geometry s) = true ->
  Encloses (fold_left (fun g t => united g (geometry t)) l acc) (geometry s).
Proof.
  intros Hin Hs. revert acc.
  induction l as [|t l IH]; intros acc; [destruct Hin|].
  cbn [fold_left]. destruct Hin as [->|Hin].
  - apply fold_united_keeps; [assumption|]. now apply united_adds.
  - now apply IH.
Qed.

(** X3. The rectangle grabScreenVirtualDesktop captures encloses the
    geometry of every connected surface of positive extent, whatever the
    other surfaces are. *)
Theorem unitedGeometry_encloses (l : list QScreen) (s : QScreen) :
  In s l -> isValid (geometry s) = true -> Encloses (unitedGeometry l) (geometry s).
Proof.
  intros Hin Hs. unfold unitedGeometry. now apply fold_united_encloses.
Qed.

Lemma unitedGeometry_encloses_witness :
  Encloses (unitedGeometry (screens twinWorld)) (geometry screenRight).
Proof.
  apply unitedGeometry_encloses; [right; left; reflexivity | reflexivity].
Defined.

(** The union of two rectangles of positive extent lies in whatever
    encloses both, and has positive extent. *)
Lemma united_least (R acc b : QRect) :
  isValid acc = true -> isValid b = true -> Encloses R acc -> Encloses R b ->
  isValid (united acc b) = true /\ Encloses R (united acc b).
Proof.
  intros Ha Hb Ea Eb. apply valid_bounds in Ha, Hb.
  rewrite valid_bounds.
  destruct R, acc, b. rect_unfold. bool_cases; cbn [x1 y1 x2 y2]; lia.
Qed.

Lemma fold_united_least (R : QRect) (l : list QScreen) (acc : QRect) :
  isValid acc = true -> Encloses R acc ->
  Forall (fun s => isValid (geometry s) = true) l ->
  (forall s, In s l -> Encloses R (geometry s)) ->
  Encloses R (fold_left (fun g s => united g (geometry s)) l acc).
Proof.
  intros Ha Ea Hl. revert acc Ha Ea.
  induction Hl as [|s l Hs Hl IH]; intros acc Ha Ea HR; cbn [fold_left]; [assumption|].
  destruct (united_least R acc (geometry s) Ha Hs Ea (HR s (or_introl eq_refl)))
    as [Hv He].
  apply IH; [assumption | assumption |].
  intros t Ht. apply HR. now right.
Qed.

(** X4. The captured rectangle is the smallest one: when every connected
    surface has positive extent (and there is one), any rectangle that
    encloses all their geometries encloses the union. *)
Theorem unitedGeometry_least (R : QRect) (l : list QScreen) :
  l <> [] ->
  Forall (fun s => isValid (geometry s) = true) l ->
  (forall s, In s l -> Encloses R (geometry s)) ->
  Encloses R (unitedGeometry l).
Proof.
  intros Hne Hl HR. destruct l as [|s l]; [congruence|].
  unfold unitedGeometry. cbn [fold_left].
  rewrite united_null_l by reflexivity.
  inversion Hl as [|? ? Hs Hl']; subst.
  apply fold_united_least; [assumption | apply HR; now left | assumption |].
  intros t Ht. apply HR. now right.
Qed.

Lemma unitedGeometry_least_witness :
  Encloses (QRect_xywh (-10) (-10) 4000 2000) (unitedGeometry (screens twinWorld)).
Proof.
  apply unitedGeometry_least.
  - discriminate.
  - repeat constructor.
  - intros s [<-|[<-|[]]]; vm_compute; repeat split; discriminate.
Defined.

End Bounding.

(* ===================================================================== *)
(** * Further properties of the bus strategies                            *)
(* ===================================================================== *)

Section StrategiesMore.

(** A service that only streams into the pipe leaves the bytes, in order,
    in the file behind it, and the offset after them. *)
Lemma streams_result (fd : Z) (p : string) (chunks : list bytes) (c : bytes)
    (F : gmap string bytes) (D : gmap Z (string * nat)) (t : list Event) :
  fold_left applyRemote (streams fd chunks)
    (mkSys (<[p := c]> F) (<[fd := (p, List.length c)]> D) t)
  = mkSys (<[p := c ++ List.concat chunks]> F)
          (<[fd := (p, List.length (c ++ List.concat chunks))]> D) t.
Proof.
  revert c. induction chunks as [|data chunks IH]; intros c.
  - cbn. now rewrite app_nil_r.
  - cbn [streams map fold_left applyRemote descriptors files trace].
    rewrite lookup_insert_eq. cbn. rewrite lookup_insert_eq. cbn.
    rewrite !insert_insert_eq.
    assert (overwrite c (List.length c) data = c ++ data) as ->.
    { unfold overwrite. rewrite take_ge by lia. rewrite drop_ge by lia.
      now rewrite app_nil_r. }
    replace (List.length c + List.length data)%nat with (List.length (c ++ data))
      by (rewrite length_app; reflexivity).
    fold (streams fd chunks). rewrite IH. now rewrite <- app_assoc.
Qed.

Lemma streams_into_opened (fd : Z) (p : string) (chunks : list bytes) (s : Sys) :
  fold_left applyRemote (streams fd chunks) (opened p fd s)
  = mkSys (<[p := List.concat chunks]> (files s))
          (<[fd := (p, List.length (List.concat chunks))]> (descriptors s)) (trace s).
Proof. exact (streams_result fd p chunks [] (files s) (descriptors s) (trace s)). Qed.

(** The files and descriptors with which grabScreenDBusKde returns, once
    its temporary file was opened. *)
Lemma kde_final_state (w : World) (s : Sys) (p : string) (fd : Z) :
  temporaryFile w = Some (p, fd) ->
  let s1 := fold_left applyRemote (snd (dbus w (kdeRequest fd))) (opened p fd s) in
  files (final (grabScreenDBusKde w s)) = delete p (files s1)
  /\ descriptors (final (grabScreenDBusKde w s)) = delete fd (descriptors s1).
Proof.
  intros Ht. cbn zeta.
  destruct (dbus w (kdeRequest fd)) as [reply effects] eqn:Hd. cbn [snd].
  destruct (Qt.replyIsValid (Qt.QDBusReply_map reply)) eqn:Hv.
  - destruct (string_dec
                (Qt.toString (Qt.at_key (Qt.replyValue (Qt.QDBusReply_map reply)) "status"))
                "ok") as [Hs|Hs].
    + now rewrite (kde_status_ok w s p fd reply effects Ht Hd Hv Hs).
    + now rewrite (kde_status_not_ok w s p fd reply effects Ht Hd Hv Hs).
  - now rewrite (kde_invalid_reply w s p fd reply effects Ht Hd Hv).
Qed.

(** X5. Whatever the reply and whatever the service did, once the
    temporary file of the KDE strategy was opened it is gone when the
    strategy returns: no file is left at its path and its descriptor is
    closed. *)
Theorem kde_temporary_file_released (w : World) (s : Sys) (p : string) (fd : Z) :
  temporaryFile w = Some (p, fd) ->
  files (final (grabScreenDBusKde w s)) !! p = None
  /\ descriptors (final (grabScreenDBusKde w s)) !! fd = None.
Proof.
  intros Ht. destruct (kde_final_state w s p fd Ht) as [-> ->].
  split; apply lookup_delete_eq.
Qed.

Lemma kde_temporary_file_released_witness :
  files (final (grabScreenDBusKde refusingWorld emptySys)) !! "/tmp/projecteur.aB12cd"%string
  = None
  /\ descriptors (final (grabScreenDBusKde refusingWorld emptySys)) !! 7 = None.
Proof. exact (kde_temporary_file_released refusingWorld emptySys _ 7 eq_refl). Defined.

(** X6. When the service only streams into the pipe, and the path and the
    descriptor of the temporary file were not in use before, the KDE
    strategy returns with the files and descriptors it found: nothing is
    left behind, whatever the reply. *)
Theorem kde_leaves_no_residue (w : World) (s : Sys) (p : string) (fd : Z)
    (chunks : list bytes) :
  temporaryFile w = Some (p, fd) ->
  snd (dbus w (kdeRequest fd)) = streams fd chunks ->
  files s !! p = None -> descriptors s !! fd = None ->
  files (final (grabScreenDBusKde w s)) = files s
  /\ descriptors (final (grabScreenDBusKde w s)) = descriptors s.
Proof.
  intros Ht He Hp Hfd. destruct (kde_final_state w s p fd Ht) as [-> ->].
  rewrite He, streams_into_opened.
  cbn [files descriptors]. rewrite !delete_insert_eq.
  split; now apply delete_id.
Qed.

Lemma kde_leaves_no_residue_witness :
  files (final (grabScreenDBusKde twinWorld emptySys)) = files emptySys
  /\ descriptors (final (grabScreenDBusKde twinWorld emptySys)) = descriptors emptySys.
Proof.
  exact (kde_leaves_no_residue twinWorld emptySys _ 7 [pngBytes]
           eq_refl eq_refl eq_refl eq_refl).
Defined.

(** X7. What KWin streams into the pipe is what is decoded: when the
    service answers "ok" after writing its chunks one after the other, the
    result is the PNG decoding of their concatenation. *)
Theorem kde_decodes_stream (w : World) (s : Sys) (p : string) (fd : Z)
    (reply : Qt.QDBusMessage) (chunks : list bytes) :
  temporaryFile w = Some (p, fd) ->
  dbus w (kdeRequest fd) = (reply, streams fd chunks) ->
  Qt.replyIsValid (Qt.QDBusReply_map reply) = true ->
  Qt.toString (Qt.at_key (Qt.replyValue (Qt.QDBusReply_map reply)) "status") = "ok"%string ->
  result (grabScreenDBusKde w s)
  = Qt.fromImage (decodeImage w (Some "PNG"%string) (List.concat chunks)).
Proof.
  intros Ht Hd Hv Hs.
  rewrite (kde_status_ok w s p fd reply (streams fd chunks) Ht Hd Hv Hs).
  unfold result, received. cbn [fst].
  rewrite streams_into_opened.
  cbn [files]. now rewrite lookup_insert_eq.
Qed.

Lemma kde_decodes_stream_witness :
  result (grabScreenDBusKde twinWorld staleSys)
  = Qt.fromImage (decodeImage twinWorld (Some "PNG"%string) (List.concat [pngBytes])).
Proof.
  exact (kde_decodes_stream twinWorld staleSys _ 7 _ [pngBytes]
           eq_refl eq_refl eq_refl eq_refl).
Defined.

(** X8. A call that fails on the bus, or a reply that does not start with
    a map, makes the KDE strategy return the null pixmap after one debug
    line that carries the error message of the reply. *)
Theorem kde_bus_failure (w : World) (s : Sys) (p : string) (fd : Z) :
  temporaryFile w = Some (p, fd) ->
  Qt.replyIsValid (Qt.QDBusReply_map (fst (dbus w (kdeRequest fd)))) = false ->
  result (grabScreenDBusKde w s) = Qt.QPixmap_null
  /\ events_of (grabScreenDBusKde w) s =
     [EvTemporaryFile (Some p); EvDBusInterface kdeInterface; EvDBusCall (kdeRequest fd);
      EvLog Debug ["Screenshot failed:"%string;
                   Qt.replyErrorMessage (Qt.QDBusReply_map (fst (dbus w (kdeRequest fd))))]].
Proof.
  intros Ht Hv. destruct (dbus w (kdeRequest fd)) as [reply effects] eqn:Hd. cbn [fst] in *.
  pose proof (kde_invalid_reply w s p fd reply effects Ht Hd Hv) as Hrun. cbn zeta in Hrun.
  rewrite (events_of_app _ s _ (f_equal trace (f_equal snd Hrun))).
  now rewrite Hrun.
Qed.

Lemma kde_bus_failure_witness :
  result (grabScreenDBusKde busDownWorld emptySys) = Qt.QPixmap_null
  /\ events_of (grabScreenDBusKde busDownWorld) emptySys =
     [EvTemporaryFile (Some "/tmp/projecteur.aB12cd"%string);
      EvDBusInterface kdeInterface; EvDBusCall (kdeRequest 7);
      EvLog Debug ["Screenshot failed:"%string; "The name is not activatable"%string]].
Proof. exact (kde_bus_failure busDownWorld emptySys _ 7 eq_refl eq_refl). Defined.

Lemma replyValue_answersTrue (m : Qt.QDBusMessage) :
  Qt.replyValue (Qt.QDBusReply_bool m) = answersTrue m.
Proof.
  destruct m as [n e | args]; [reflexivity|].
  destruct args as [|[b| | |] args]; try reflexivity. now destruct b.
Qed.

(** X9. The GNOME strategy takes anything but a reply that starts with the
    boolean true for a failure: a bus error, an empty reply, a reply of
    another type or the boolean false all give the null pixmap and one
    error line, and nothing is removed. *)
Theorem gnome_failure_modes (w : World) (s : Sys) :
  answersTrue (fst (dbus w (gnomeRequest w))) = false ->
  result (grabScreenDBusGnome w s) = Qt.QPixmap_null
  /\ events_of (grabScreenDBusGnome w) s =
     [EvDBusInterface gnomeInterface; EvDBusCall (gnomeRequest w);
      EvLog Error ["Screenshot via GNOME DBus interface failed."%string]]
  /\ files (final (grabScreenDBusGnome w s))
     = files (fold_left applyRemote (snd (dbus w (gnomeRequest w))) s).
Proof.
  intros Ha. destruct (dbus w (gnomeRequest w)) as [reply effects] eqn:Hd. cbn [fst snd] in *.
  rewrite <- replyValue_answersTrue in Ha.
  pose proof (gnome_failure w s reply effects Hd Ha) as Hrun. cbn zeta in Hrun.
  rewrite (events_of_app _ s _ (f_equal trace (f_equal snd Hrun))).
  now rewrite Hrun.
Qed.

Lemma gnome_failure_modes_witness :
  result (grabScreenDBusGnome busDownWorld staleSys) = Qt.QPixmap_null
  /\ files (final (grabScreenDBusGnome busDownWorld staleSys)) = files staleSys.
Proof.
  destruct (gnome_failure_modes busDownWorld staleSys eq_refl) as (Hr & _ & Hf).
  split; [exact Hr | exact Hf].
Defined.

(** X10. When GNOME Shell writes the screenshot to the path it was given
    and answers true, the result is the decoding of exactly those bytes,
    and the file is gone afterwards: the files are those from before the
    call, less the temporary path. *)
Theorem gnome_round_trip (w : World) (s : Sys) (reply : Qt.QDBusMessage) (data : bytes) :
  dbus w (gnomeRequest w) = (reply, [WritesFile (gnomePath w) data]) ->
  answersTrue reply = true ->
  result (grabScreenDBusGnome w s) = Qt.fromImage (decodeImage w None data)
  /\ files (final (grabScreenDBusGnome w s)) = delete (gnomePath w) (files s).
Proof.
  intros Hd Ha. rewrite <- replyValue_answersTrue in Ha.
  rewrite (gnome_success w s reply _ Hd Ha). cbn zeta.
  unfold result, final. cbn [fst snd fold_left applyRemote files].
  rewrite lookup_insert_eq. split; [reflexivity|]. apply delete_insert_eq.
Qed.

Lemma gnome_round_trip_witness :
  result (grabScreenDBusGnome gnomeWorld staleSys) = Some (testImage 3200 1080 ratio2)
  /\ files (final (grabScreenDBusGnome gnomeWorld staleSys)) !! gnomePath gnomeWorld = None.
Proof.
  destruct (gnome_round_trip gnomeWorld staleSys _ pngBytes eq_refl eq_refl) as [Hr Hf].
  split; [exact Hr|]. rewrite Hf. apply lookup_delete_eq.
Defined.

End StrategiesMore.

(* ===================================================================== *)
(** * Further properties of the dispatcher                                *)
(* ===================================================================== *)

Section DispatcherMore.

Import LinuxDesktop.

Lemma gnome_attempts (w : World) (s : Sys) :
  extendsWith (fun evs => (captureAttempts evs <= 1)%nat) (grabScreenDBusGnome w s) s.
Proof.
  destruct (dbus w (gnomeRequest w)) as [reply effects] eqn:Hd.
  destruct (Qt.replyValue (Qt.QDBusReply_bool reply)) eqn:Hv.
  - rewrite (gnome_success w s reply effects Hd Hv). eexists. split; [reflexivity|].
    unfold captureAttempts. cbn. lia.
  - rewrite (gnome_failure w s reply effects Hd Hv). eexists. split; [reflexivity|].
    unfold captureAttempts. cbn. lia.
Qed.

Lemma kde_attempts (w : World) (s : Sys) :
  extendsWith (fun evs => (captureAttempts evs <= 1)%nat) (grabScreenDBusKde w s) s.
Proof.
  destruct (temporaryFile w) as [[p fd]|] eqn:Ht.
  - destruct (dbus w (kdeRequest fd)) as [reply effects] eqn:Hd.
    destruct (Qt.replyIsValid (Qt.QDBusReply_map reply)) eqn:Hv.
    + destruct (string_dec
                  (Qt.toString (Qt.at_key (Qt.replyValue (Qt.QDBusReply_map reply)) "status"))
                  "ok") as [Hs|Hs].
      * rewrite (kde_status_ok w s p fd reply effects Ht Hd Hv Hs).
        eexists. split; [reflexivity|]. unfold captureAttempts. cbn. lia.
      * rewrite (kde_status_not_ok w s p fd reply effects Ht Hd Hv Hs).
        eexists. split; [reflexivity|]. unfold captureAttempts. cbn. lia.
    + rewrite (kde_invalid_reply w s p fd reply effects Ht Hd Hv).
      eexists. split; [reflexivity|]. unfold captureAttempts. cbn. lia.
  - rewrite (kde_open_failed w s Ht). eexists. split; [reflexivity|]. unfold captureAttempts. cbn. lia.
Qed.

Lemma wayland_attempts (cfg : BuildConfig) (w : World) (this : t) (screen : Qt.QScreen)
    (s : Sys) :
  extendsWith (fun evs => (captureAttempts evs <= 1)%nat)
    (grabScreenWayland cfg w this screen s) s.
Proof.
  destruct (HAS_Qt_DBus cfg) eqn:Hb.
  - rewrite (wayland_run cfg w this screen s Hb). cbn zeta.
    unfold extendsWith. cbn [snd].
    destruct (type this).
    + apply kde_attempts.
    + apply gnome_attempts.
    + eexists. split; [reflexivity|]. unfold captureAttempts. cbn. lia.
  - rewrite (wayland_without_dbus cfg w this screen s Hb).
    eexists. split; [reflexivity|]. unfold captureAttempts. cbn. lia.
Qed.

(** X11. One call of grabScreen asks for at most one image: the bus calls
    and the captures of the window system of a run are at most one in all,
    for every build, world, desktop, target and state; no strategy is
    tried after another one. *)
Theorem grabScreen_single_attempt (cfg : BuildConfig) (w : World) (this : t)
    (screen : option Qt.QScreen) (s : Sys) :
  (captureAttempts (events_of (grabScreen cfg w this screen) s) <= 1)%nat.
Proof.
  destruct screen as [screen|].
  - assert (extendsWith (fun evs => (captureAttempts evs <= 1)%nat)
              (grabScreen cfg w this (Some screen) s) s) as (evs & Ht & Hc).
    { unfold grabScreen. destruct (isWayland this).
      - apply wayland_attempts.
      - destruct (isVirtualDesktop cfg w).
        + rewrite virtual_desktop_run. eexists. split; [reflexivity|]. unfold captureAttempts. cbn. lia.
        + eexists. split; [reflexivity|]. unfold captureAttempts. cbn. lia. }
    now rewrite (events_of_app _ s evs Ht).
  - rewrite (events_of_app _ s []); [unfold captureAttempts; cbn; lia|]. cbn. now rewrite app_nil_r.
Qed.

(** X12. Outside a compositor session grabScreen does not touch the file
    system: files and descriptors are returned as they were found, on the
    virtual-desktop path, on the native path and for a null target. *)
Theorem grabScreen_x11_frame (cfg : BuildConfig) (w : World) (this : t)
    (screen : option Qt.QScreen) (s : Sys) :
  isWayland this = false ->
  files (final (grabScreen cfg w this screen s)) = files s
  /\ descriptors (final (grabScreen cfg w this screen s)) = descriptors s.
Proof.
  intros Hw. unfold grabScreen. destruct screen as [screen|]; [|split; reflexivity].
  rewrite Hw. destruct (isVirtualDesktop cfg w).
  - rewrite virtual_desktop_run. split; reflexivity.
  - split; reflexivity.
Qed.

Lemma grabScreen_x11_frame_witness :
  files (final (grabScreen qt5 twinWorld x11Desktop (Some screenLeft) staleSys))
  = files staleSys.
Proof.
  exact (proj1 (grabScreen_x11_frame qt5 twinWorld x11Desktop (Some screenLeft) staleSys
                  eq_refl)).
Defined.

(** X13. A build without Qt DBus never captures in a compositor session,
    whatever the desktop: the result is the null pixmap, the only event is
    one warning, and files and descriptors are untouched. *)
Theorem wayland_without_dbus_build (cfg : BuildConfig) (w : World) (this : t)
    (screen : Qt.QScreen) (s : Sys) :
  HAS_Qt_DBus cfg = false -> isWayland this = true ->
  let r := grabScreen cfg w this (Some screen) s in
  result r = Qt.QPixmap_null
  /\ (exists text, events_of (grabScreen cfg w this (Some screen)) s = [EvLog Warning [text]])
  /\ files (final r) = files s /\ descriptors (final r) = descriptors s.
Proof.
  intros Hb Hw. cbn zeta.
  assert (grabScreen cfg w this (Some screen) s = grabScreenWayland cfg w this screen s)
    as Hg by (unfold grabScreen; now rewrite Hw).
  pose proof (wayland_without_dbus cfg w this screen s Hb) as Hrun.
  rewrite <- Hg in Hrun.
  rewrite (events_of_app _ s _ (f_equal trace (f_equal snd Hrun))).
  rewrite Hrun. repeat split. eexists. reflexivity.
Qed.

Lemma wayland_without_dbus_build_witness :
  result (grabScreen withoutDBus gnomeWorld gnomeWayland (Some screenLeft) emptySys)
  = Qt.QPixmap_null
  /\ files (final (grabScreen withoutDBus gnomeWorld gnomeWayland (Some screenLeft) emptySys))
     = files emptySys.
Proof.
  destruct (wayland_without_dbus_build withoutDBus gnomeWorld gnomeWayland screenLeft emptySys
              eq_refl eq_refl) as (Hr & _ & Hf & _).
  split; [exact Hr | exact Hf].
Defined.

Lemma copy_overlap_ratio (d : Qt.QPixmapData) (rect : Qt.QRect) :
  Qt.pixmapIsNull (Some d) = false -> Overlaps d rect ->
  exists img, Qt.copy (Some d) rect = Some img
              /\ Qt.pm_devicePixelRatio img = Qt.pm_devicePixelRatio d.
Proof.
  intros Hd (Hx & Hy & Hx0 & Hxw & Hy0 & Hyh).
  cbn in Hd. apply orb_false_iff in Hd as [Hw Hh]. apply Z.leb_gt in Hw, Hh.
  destruct (copy_overlap d rect Hw Hh Hx Hy Hx0 Hxw Hy0 Hyh) as (img & Hc & _ & _ & Hr).
  eauto.
Qed.

(** X14. The device pixel ratio of a cropped result.  On the
    virtual-desktop path the result carries the ratio of the target
    surface, whatever ratio the capture had.  On the bus path of a build
    with Qt DBus it carries the ratio the decoded image came with; the
    ratio of the target is not applied there. *)
Theorem capture_pixel_ratio (cfg : BuildConfig) (w : World) (this : t)
    (screen : Qt.QScreen) (s : Sys) (d : Qt.QPixmapData) :
  capturedImage cfg w this screen s = Some d ->
  Qt.pixmapIsNull (Some d) = false ->
  Overlaps d (Qt.geometry screen) ->
  (isWayland this = true -> HAS_Qt_DBus cfg = true ->
   exists img, result (grabScreen cfg w this (Some screen) s) = Some img
               /\ Qt.pm_devicePixelRatio img = Qt.pm_devicePixelRatio d)
  /\ (isWayland this = false -> isVirtualDesktop cfg w = true ->
      exists img, result (grabScreen cfg w this (Some screen) s) = Some img
                  /\ Qt.pm_devicePixelRatio img = Qt.devicePixelRatio screen).
Proof.
  intros Hc Hd Ho. split.
  - intros Hw Hb. unfold capturedImage in Hc. rewrite Hw in Hc.
    unfold grabScreen. rewrite Hw, (wayland_run cfg w this screen s Hb). cbn zeta.
    unfold result in *. cbn [fst].
    destruct (type this); try discriminate Hc; rewrite Hc, Hd;
      now apply copy_overlap_ratio.
  - intros Hw Hv. unfold capturedImage in Hc. rewrite Hw in Hc.
    unfold grabScreen. rewrite Hw, Hv, virtual_desktop_run. unfold result. cbn [fst].
    destruct (Qt.pixmapIsNull (unionCapture cfg w)) eqn:Hn.
    + unfold Qt.setDevicePixelRatio in Hc. rewrite Hn in Hc. rewrite Hc in Hn. congruence.
    + cbn [negb]. rewrite Hc.
      destruct (copy_overlap_ratio d (Qt.geometry screen) Hd Ho) as (img & Hi & Hr).
      exists img. split; [assumption|]. rewrite Hr.
      unfold Qt.setDevicePixelRatio in Hc. rewrite Hn in Hc.
      destruct (unionCapture cfg w); [|discriminate Hc]. now injection Hc as <-.
Qed.

Lemma capture_pixel_ratio_witness :
  (exists img,
      result (grabScreen qt5 gnomeWorld gnomeWayland (Some screenRight) emptySys) = Some img
      /\ Qt.pm_devicePixelRatio img = ratio2)
  /\ (exists img,
         result (grabScreen qt5 twinWorld x11Desktop (Some screenRight) emptySys) = Some img
         /\ Qt.pm_devicePixelRatio img = ratio1).
Proof.
  split.
  - refine (proj1 (capture_pixel_ratio qt5 gnomeWorld gnomeWayland screenRight emptySys
                     (testImage 3200 1080 ratio2) eq_refl eq_refl _) eq_refl eq_refl).
    vm_compute. repeat split; discriminate.
  - refine (proj2 (capture_pixel_ratio qt5 twinWorld x11Desktop screenRight emptySys
                     (testImage 3200 1080 ratio1) eq_refl eq_refl _) eq_refl eq_refl).
    vm_compute. repeat split; discriminate.
Defined.

(** X21. The crop of the virtual-desktop strategy, for any arrangement
    whose union starts at (0,0).  When the target is a connected surface of
    positive extent and the window system returns a capture of the size of
    the union, the result has exactly the size of the geometry of the
    target, carries its device pixel ratio, and its pixel (px,py) is the
    pixel of the capture at the position of the target plus (px,py). *)
Theorem virtual_desktop_crop (cfg : BuildConfig) (w : World) (screen : Qt.QScreen)
    (s : Sys) (d : Qt.QPixmapData) :
  In screen (screens w) -> Qt.isValid (Qt.geometry screen) = true ->
  Qt.x (unitedGeometry (screens w)) = 0 -> Qt.y (unitedGeometry (screens w)) = 0 ->
  unionCapture cfg w = Some d ->
  Qt.pm_width d = Qt.width (unitedGeometry (screens w)) ->
  Qt.pm_height d = Qt.height (unitedGeometry (screens w)) ->
  exists img,
    result (grabScreenVirtualDesktop cfg w screen s) = Some img
    /\ (Qt.pm_width img, Qt.pm_height img) = rectSize (Qt.geometry screen)
    /\ Qt.pm_devicePixelRatio img = Qt.devicePixelRatio screen
    /\ forall px py,
         Qt.pm_pixel img px py
         = Qt.pm_pixel d (Qt.x (Qt.geometry screen) + px) (Qt.y (Qt.geometry screen) + py).
Proof.
  intros Hin Hv Hx Hy Hd Hw Hh.
  destruct (fold_united_encloses (screens w) screen Qt.QRect_null Hin Hv)
    as (E1 & E2 & E3 & E4).
  fold (unitedGeometry (screens w)) in E1, E2, E3, E4.
  apply valid_bounds in Hv as [V1 V2].
  unfold Qt.x, Qt.y, Qt.width, Qt.height in *.
  rewrite virtual_desktop_run, Hd. unfold result. cbn [fst].
  assert (Qt.pixmapIsNull (Some d) = false) as Hnn.
  { cbn. apply orb_false_iff. split; apply Z.leb_gt; lia. }
  rewrite Hnn. cbn [negb]. unfold Qt.setDevicePixelRatio. rewrite Hnn.
  rewrite copy_within; cbn [Qt.pm_width Qt.pm_height]; try lia.
  eexists. split; [reflexivity|]. cbn. auto.
Qed.

Lemma virtual_desktop_crop_witness :
  exists img,
    result (grabScreenVirtualDesktop qt5 twinWorld screenRight emptySys) = Some img
    /\ (Qt.pm_width img, Qt.pm_height img) = (1280, 1024)
    /\ Qt.pm_devicePixelRatio img = ratio1
    /\ forall px py,
         Qt.pm_pixel img px py = Qt.pm_pixel (testImage 3200 1080 ratio1) (1920 + px) (0 + py).
Proof.
  exact (virtual_desktop_crop qt5 twinWorld screenRight emptySys (testImage 3200 1080 ratio1)
           (or_intror (or_introl eq_refl)) eq_refl eq_refl eq_refl eq_refl eq_refl eq_refl).
Defined.

End DispatcherMore.

(* ===================================================================== *)
(** * main: the command line                                              *)
(* ===================================================================== *)

Section CommandLine.

Import Main.

Lemma length_zero (s : string) : Nat.eqb (String.length s) 0 = true <-> s = EmptyString.
Proof. destruct s; cbn; split; congruence. Qed.

Lemma length_nonzero (s : string) : s <> EmptyString -> Nat.eqb (String.length s) 0 = false.
Proof. destruct s; cbn; congruence. Qed.

Lemma string_app_assoc (a b c : string) :
  String.append (String.append a b) c = String.append a (String.append b c).
Proof.
  induction a as [|ch a IH]; [reflexivity|].
  change (String ch (String.append (String.append a b) c)
          = String ch (String.append a (String.append b c))).
  now rewrite IH.
Qed.

(** The one place marker of the message of exit code 43 is replaced by
    the command, whatever the command contains. *)
Lemma arg_cannot_send (c : string) :
  QtText.arg "Cannot send command '%1' - no running application instance found." c
  = String.append "Cannot send command '"
      (String.append c "' - no running application instance found.").
Proof. reflexivity. Qed.

Lemma informational_false (parser : QCommandLineParser) :
  informational parser = false ->
  (isSet parser helpOption || isSet parser fullHelpOption)%bool = false
  /\ (isSet parser versionOption || isSet parser fullVersionOption)%bool = false.
Proof.
  unfold informational.
  destruct (isSet parser helpOption), (isSet parser fullHelpOption),
    (isSet parser versionOption), (isSet parser fullVersionOption); cbn; auto; discriminate.
Qed.

Lemma properties_stdout (w : World) : forallb isStdout (properties w) = true.
Proof.
  unfold properties. cbn [forallb print isStdout andb].
  induction (stringProperties w) as [|it l IH]; cbn; [reflexivity | exact IH].
Qed.

Lemma usage_stdout (w : World) (name : string) : forallb isStdout (usage w name) = true.
Proof. reflexivity. Qed.

Lemma version_stdout (w : World) (parser : QCommandLineParser) (name : string) :
  forallb isStdout (version w parser name) = true.
Proof.
  unfold version.
  destruct (isSet parser fullVersionOption || _)%bool, (version_isdirty w); reflexivity.
Qed.

(** X15. With --help, --help-all, --version or --fullversion main only
    prints: the exit code is 0 and every event is a text on the standard
    output.  No single-instance guard is tried, no command is sent and no
    application is started, also when a command or a config file is given
    along. *)
Theorem main_informational (w : World) (argv : list string) (parser : QCommandLineParser) :
  process w argv = Some parser -> informational parser = true ->
  fst (main w argv) = 0 /\ forallb isStdout (snd (main w argv)) = true.
Proof.
  intros Hp Hi. unfold main. rewrite Hp.
  destruct (isSet parser helpOption || isSet parser fullHelpOption)%bool eqn:Hh.
  - destruct (isSet parser fullHelpOption); cbn [negb fst snd].
    + split; [reflexivity|]. rewrite forallb_app, properties_stdout. reflexivity.
    + split; reflexivity.
  - assert ((isSet parser versionOption || isSet parser fullVersionOption)%bool = true) as ->.
    { unfold informational in Hi. apply orb_false_iff in Hh as [H1 H2].
      rewrite H1, H2 in Hi. exact Hi. }
    cbn [fst snd]. split; [reflexivity | apply version_stdout].
Qed.

Lemma main_informational_witness :
  fst (main (exampleWorld helpAndCommand true) ["projecteur"; "-h"; "-c"; "quit"]%string) = 0
  /\ forallb isStdout
       (snd (main (exampleWorld helpAndCommand true) ["projecteur"; "-h"; "-c"; "quit"]%string))
     = true.
Proof.
  exact (main_informational (exampleWorld helpAndCommand true) _ helpAndCommand
           eq_refl eq_refl).
Defined.

(** X16. A command option with an empty value ends main with exit code 44
    and one line on the standard error, before the single-instance guard
    is tried. *)
Theorem main_empty_command (w : World) (argv : list string) (parser : QCommandLineParser) :
  process w argv = Some parser -> informational parser = false ->
  isSet parser commandOption = true -> value parser commandOption = EmptyString ->
  main w argv
  = (44, [Stderr (String.append "Command cannot be an empty string." endl)]).
Proof.
  intros Hp Hi Hc Hv. apply informational_false in Hi as [Hh Hver].
  unfold main. rewrite Hp, Hh, Hver, Hc, Hv. reflexivity.
Qed.

Lemma main_empty_command_witness :
  main (exampleWorld (withCommand EmptyString) true) ["projecteur"; "-c"; EmptyString]%string
  = (44, [Stderr (String.append "Command cannot be an empty string." endl)]).
Proof.
  exact (main_empty_command (exampleWorld (withCommand EmptyString) true) _
           (withCommand EmptyString) eq_refl eq_refl eq_refl eq_refl).
Defined.

(** X17. When another instance holds the guard, main starts no
    application: with a command it hands the command to the command
    client and returns the exit code of the client; without one it prints
    one error line and returns 42. *)
Theorem main_instance_running (w : World) (argv : list string) (parser : QCommandLineParser) :
  process w argv = Some parser -> informational parser = false ->
  tryToRun w "Projecteur" = false ->
  (isSet parser commandOption = true -> value parser commandOption <> EmptyString ->
   main w argv
   = (commandClientExec w (value parser commandOption) argv,
      [EvRunGuard "Projecteur"; EvCommandClient (value parser commandOption) argv]))
  /\ (isSet parser commandOption = false ->
      main w argv
      = (42, [EvRunGuard "Projecteur";
              Stderr (String.append "Another application instance is already running. Exiting."
                        endl)])).
Proof.
  intros Hp Hi Hg. apply informational_false in Hi as [Hh Hver].
  unfold main. rewrite Hp, Hh, Hver, Hg. split.
  - intros Hc Hv. rewrite Hc, (length_nonzero _ Hv). reflexivity.
  - intros Hc. rewrite Hc. reflexivity.
Qed.

Lemma main_instance_running_witness :
  main (exampleWorld (withCommand "quit") true) ["projecteur"; "-c"; "quit"]%string
  = (7, [EvRunGuard "Projecteur"; EvCommandClient "quit" ["projecteur"; "-c"; "quit"]%string])
  /\ fst (main (exampleWorld noOptions true) ["projecteur"%string]) = 42.
Proof.
  split.
  - refine (proj1 (main_instance_running (exampleWorld (withCommand "quit") true) _
                     (withCommand "quit") eq_refl eq_refl eq_refl) eq_refl _).
    discriminate.
  - rewrite (proj2 (main_instance_running (exampleWorld noOptions true) _
                      noOptions eq_refl eq_refl eq_refl) eq_refl).
    reflexivity.
Defined.

(** X18. When no other instance holds the guard, a command cannot be
    delivered: main prints one error line that quotes the command as it
    was given, and returns 43.  Without a command main starts the
    application, with the config file of --cfg if there is one, and
    returns its exit code. *)
Theorem main_first_instance (w : World) (argv : list string) (parser : QCommandLineParser) :
  process w argv = Some parser -> informational parser = false ->
  tryToRun w "Projecteur" = true ->
  (isSet parser commandOption = true -> value parser commandOption <> EmptyString ->
   main w argv
   = (43, [EvRunGuard "Projecteur";
           Stderr (String.append "Cannot send command '"
                     (String.append (value parser commandOption)
                        (String.append "' - no running application instance found." endl)))]))
  /\ (isSet parser commandOption = false ->
      let options := mkOptions (if isSet parser cfgFileOption
                                then value parser cfgFileOption else EmptyString) in
      main w argv
      = (applicationExec w argv options,
         [EvRunGuard "Projecteur"; EvApplication argv options])).
Proof.
  intros Hp Hi Hg. apply informational_false in Hi as [Hh Hver].
  unfold main. rewrite Hp, Hh, Hver, Hg. split.
  - intros Hc Hv. rewrite Hc, (length_nonzero _ Hv). cbn [andb negb].
    unfold error, tr. cbn [String.concat]. rewrite arg_cannot_send.
    now rewrite !string_app_assoc.
  - intros Hc. rewrite Hc. cbn. destruct (isSet parser cfgFileOption); reflexivity.
Qed.

Lemma main_first_instance_witness :
  main (exampleWorld (withCommand "spot=on") false) ["projecteur"; "-c"; "spot=on"]%string
  = (43, [EvRunGuard "Projecteur";
          Stderr (String.append "Cannot send command '"
                    (String.append "spot=on"
                       (String.append "' - no running application instance found." endl)))])
  /\ main (exampleWorld noOptions false) ["projecteur"%string]
     = (0, [EvRunGuard "Projecteur";
            EvApplication ["projecteur"%string] (mkOptions EmptyString)]).
Proof.
  split.
  - refine (proj1 (main_first_instance (exampleWorld (withCommand "spot=on") false) _
                     (withCommand "spot=on") eq_refl eq_refl eq_refl) eq_refl _).
    discriminate.
  - exact (proj2 (main_first_instance (exampleWorld noOptions false) _
                    noOptions eq_refl eq_refl eq_refl) eq_refl).
Defined.

Lemma stdout_not_application (l : list Event) :
  forallb isStdout l = true -> existsb isApplication l = false.
Proof.
  induction l as [|e l IH]; [reflexivity|]. cbn. intros H.
  apply andb_true_iff in H as [He Hl]. rewrite (IH Hl).
  destruct e; try discriminate He; reflexivity.
Qed.

(** X19. main starts the application in one case only: the arguments
    parse, none of the informational options and no command option is
    given, and the single-instance guard is obtained. *)
Theorem main_starts_application (w : World) (argv : list string) :
  existsb isApplication (snd (main w argv)) = true
  <-> exists parser,
        process w argv = Some parser
        /\ informational parser = false
        /\ isSet parser commandOption = false
        /\ tryToRun w "Projecteur" = true.
Proof.
  split.
  - intros H. unfold main in H. destruct (process w argv) as [parser|]; [|discriminate H].
    exists parser. split; [reflexivity|]. unfold informational.
    destruct (isSet parser helpOption || isSet parser fullHelpOption)%bool.
    + destruct (negb (isSet parser fullHelpOption)); cbn [snd] in H.
      * rewrite (stdout_not_application _ (usage_stdout w _)) in H. discriminate H.
      * rewrite existsb_app, (stdout_not_application _ (usage_stdout w _)),
          (stdout_not_application _ (properties_stdout w)) in H.
        discriminate H.
    + cbn [orb]. destruct (isSet parser versionOption || isSet parser fullVersionOption)%bool.
      * cbn [snd] in H.
        rewrite (stdout_not_application _ (version_stdout w parser _)) in H. discriminate H.
      * split; [reflexivity|].
        destruct (isSet parser commandOption).
        -- destruct (Nat.eqb (String.length (value parser commandOption)) 0);
             [discriminate H|].
           destruct (tryToRun w "Projecteur"); discriminate H.
        -- split; [reflexivity|].
           destruct (tryToRun w "Projecteur"); [reflexivity | discriminate H].
  - intros (parser & Hp & Hi & Hc & Hg). apply informational_false in Hi as [Hh Hver].
    unfold main. now rewrite Hp, Hh, Hver, Hc, Hg.
Qed.

(** X22. The help options come first: with --help or --help-all the run
    of main depends on the arguments only through the presence of
    --help-all.  Version options, a command and a config file given along
    change neither the exit code nor what is printed. *)
Theorem main_help_first (w : World) (argv argv' : list string)
    (parser parser' : QCommandLineParser) :
  process w argv = Some parser -> process w argv' = Some parser' ->
  (isSet parser helpOption || isSet parser fullHelpOption)%bool = true ->
  (isSet parser' helpOption || isSet parser' fullHelpOption)%bool = true ->
  isSet parser fullHelpOption = isSet parser' fullHelpOption ->
  main w argv = main w argv'.
Proof.
  intros Hp Hp' Hh Hh' Hf. unfold main. now rewrite Hp, Hp', Hh, Hh', Hf.
Qed.

Lemma main_help_first_witness :
  main helpWorld ["projecteur"; "-h"; "-c"; "quit"]%string
  = main helpWorld ["projecteur"; "--help"]%string.
Proof.
  exact (main_help_first helpWorld
           ["projecteur"; "-h"; "-c"; "quit"]%string ["projecteur"; "--help"]%string
           helpAndCommand helpOnly eq_refl eq_refl eq_refl eq_refl eq_refl).
Defined.

Lemma lowestMarker_noPercent (a s : string) :
  QtText.noPercent a = true ->
  QtText.lowestMarker (String.append a s) = QtText.lowestMarker s.
Proof.
  induction a as [|c a IH]; [reflexivity|]. cbn [QtText.noPercent]. intros H.
  apply andb_true_iff in H as [Hc Ha]. apply negb_true_iff in Hc.
  change (String.append (String c a) s) with (String c (String.append a s)).
  cbn [QtText.lowestMarker]. rewrite Hc. now apply IH.
Qed.

Lemma replaceMarkers_noPercent (n : nat) (x a s : string) :
  QtText.noPercent a = true ->
  QtText.replaceMarkers n x 0 (String.append a s)
  = String.append a (QtText.replaceMarkers n x 0 s).
Proof.
  induction a as [|c a IH]; [reflexivity|]. cbn [QtText.noPercent]. intros H.
  apply andb_true_iff in H as [Hc Ha]. apply negb_true_iff in Hc.
  change (String.append (String c a) s) with (String c (String.append a s)).
  cbn [QtText.replaceMarkers]. rewrite Hc, (IH Ha). reflexivity.
Qed.

(** X20. The text getValues gives for a property.  For a StringEnum it is
    the values joined by a comma and a space, in parentheses, whatever the
    values contain.  For an Integer or a Double whose lower bound has no
    percent sign it is the two bounds in parentheses with three dots
    between them.  For any other type it is empty. *)
Theorem getValues_text (sp : StringProperty) :
  (type sp = StringEnum ->
   getValues sp
   = String.append "(" (String.append (String.concat ", " (range sp)) ")"))
  /\ (type sp = Integer \/ type sp = Double ->
      forall lo hi rest,
        range sp = lo :: hi :: rest -> QtText.noPercent lo = true ->
        getValues sp
        = String.append "(" (String.append lo (String.append " ... " (String.append hi ")"))))
  /\ (type sp <> StringEnum -> type sp <> Integer -> type sp <> Double ->
      getValues sp = EmptyString).
Proof.
  split; [|split].
  - intros Ht. unfold getValues. rewrite Ht. reflexivity.
  - intros Ht lo hi rest Hr Hlo.
    assert (getValues sp = QtText.arg (QtText.arg "(%1 ... %2)" lo) hi) as ->.
    { unfold getValues. rewrite Hr. destruct Ht as [-> | ->]; reflexivity. }
    change (QtText.arg "(%1 ... %2)" lo) with (String "("%char (String.append lo " ... %2)")).
    unfold QtText.arg. cbn [QtText.lowestMarker Ascii.eqb Bool.eqb].
    rewrite (lowestMarker_noPercent lo _ Hlo).
    change (QtText.lowestMarker " ... %2)") with (Some 2%nat).
    cbn [QtText.replaceMarkers Ascii.eqb Bool.eqb].
    rewrite (replaceMarkers_noPercent 2 hi lo _ Hlo). reflexivity.
  - intros H1 H2 H3. unfold getValues. destruct (type sp); congruence.
Qed.

Lemma getValues_text_witness :
  getValues (mkProperty StringEnum ["50%"; "100%"]%string) = "(50%, 100%)"%string
  /\ getValues (mkProperty Integer ["5"; "100"]%string) = "(5 ... 100)"%string
  /\ getValues (mkProperty OtherType []) = EmptyString.
Proof.
  destruct (getValues_text (mkProperty StringEnum ["50%"; "100%"]%string)) as (H1 & _ & _).
  destruct (getValues_text (mkProperty Integer ["5"; "100"]%string)) as (_ & H2 & _).
  destruct (getValues_text (mkProperty OtherType [])) as (_ & _ & H3).
  split; [exact (H1 eq_refl)|].
  split; [exact (H2 (or_introl eq_refl) _ _ _ eq_refl eq_refl)|].
  apply H3; discriminate.
Defined.

End CommandLine.
